(** * scientific_method.py: a shallow embedding and its verified properties

    The program drives a fixed sequence of prompts against a completion
    service, stores every reply in a dictionary with eight fixed keys, keeps
    a transcript in a log file and finally dumps the dictionary as JSON.

    Modelling choices, all taken from the source:
    - Python [str] is [string]; [None] is [None : option string]; an
      f-string is the list of its literal and interpolated pieces.
    - [self.results] is created by [__init__] with exactly eight keys and no
      method adds or removes a key, so it is the record [Results] with one
      optional text per key; [get] and [set] are subscripting and item
      assignment.
    - The file system and [os.environ] are finite maps ([gmap]).
    - The completion service, the client constructor, the [.env] file and
      the clock are outside the program: they are the variables of
      [Section Program]. A reply of the service is the text the code reads
      from the response object, no text (a chat message whose content is
      [None], which the code stores as it is), or a failure (an exception
      raised by the call or while reading the response).
    - Methods are computations in a state-and-exception monad; the state is
      kept when an exception is raised, as the Python objects are. *)

From Stdlib Require Import String Ascii List Bool Arith Lia.
From stdpp Require Import base option list gmap strings.
Import ListNotations.

Local Open Scope string_scope.
Local Open Scope list_scope.

(** ** Python values *)

Definition nl : string := String "010"%char EmptyString.

Definition blank : string := EmptyString.

(** [lines [l1; ...; ln]] is the text [l1\n...\nln]. *)
Definition lines (ls : list string) : string := String.concat nl ls.

(** [s * n] for a one-character string [s]. *)
Fixpoint str_mul (s : string) (n : nat) : string :=
  match n with
  | O => blank
  | S n' => s +:+ str_mul s n'
  end.

(** A text without its last character. *)
Fixpoint but_last (s : string) : string :=
  match s with
  | EmptyString => EmptyString
  | String c EmptyString => EmptyString
  | String c s' => String c (but_last s')
  end.

(** [format(v)] inside an f-string: [None] prints as the word None. *)
Definition py_str (v : option string) : string :=
  match v with
  | Some s => s
  | None => "None"
  end.

(** Truth value of an optional text: [None] and the empty text are false. *)
Definition truthy (v : option string) : bool :=
  match v with
  | Some s => negb (String.eqb s blank)
  | None => false
  end.

(** [a or b] on optional texts. *)
Definition py_or (a b : option string) : option string :=
  if truthy a then a else b.

(** [s] occurs verbatim inside [t]. *)
Definition occurs_in (s t : string) : Prop :=
  exists a b, t = a +:+ s +:+ b.


(** ** The investigation record *)

Inductive key :=
| Kquestion | Kobservations | Khypothesis | Kpredictions
| Kexperiments | Kexperimental_data | Kanalysis | Kconclusion.

#[global] Instance key_eq_dec : EqDecision key.
Proof. solve_decision. Defined.

Definition key_name (k : key) : string :=
  match k with
  | Kquestion => "question"
  | Kobservations => "observations"
  | Khypothesis => "hypothesis"
  | Kpredictions => "predictions"
  | Kexperiments => "experiments"
  | Kexperimental_data => "experimental_data"
  | Kanalysis => "analysis"
  | Kconclusion => "conclusion"
  end.

(** The keys in the order of the dictionary literal of [__init__], which is
    also the pipeline order. *)
Definition all_keys : list key :=
  [Kquestion; Kobservations; Khypothesis; Kpredictions;
   Kexperiments; Kexperimental_data; Kanalysis; Kconclusion].

Record Results := mkResults {
  question : option string;
  observations : option string;
  hypothesis : option string;
  predictions : option string;
  experiments : option string;
  experimental_data : option string;
  analysis : option string;
  conclusion : option string
}.

(** [self.results[k]] and [self.results.get(k)]: every key is present. *)
Definition get (k : key) (r : Results) : option string :=
  match k with
  | Kquestion => question r
  | Kobservations => observations r
  | Khypothesis => hypothesis r
  | Kpredictions => predictions r
  | Kexperiments => experiments r
  | Kexperimental_data => experimental_data r
  | Kanalysis => analysis r
  | Kconclusion => conclusion r
  end.

(** [self.results[k] = v]. *)
Definition set (k : key) (v : option string) (r : Results) : Results :=
  match k with
  | Kquestion =>
      mkResults v (observations r) (hypothesis r) (predictions r)
        (experiments r) (experimental_data r) (analysis r) (conclusion r)
  | Kobservations =>
      mkResults (question r) v (hypothesis r) (predictions r)
        (experiments r) (experimental_data r) (analysis r) (conclusion r)
  | Khypothesis =>
      mkResults (question r) (observations r) v (predictions r)
        (experiments r) (experimental_data r) (analysis r) (conclusion r)
  | Kpredictions =>
      mkResults (question r) (observations r) (hypothesis r) v
        (experiments r) (experimental_data r) (analysis r) (conclusion r)
  | Kexperiments =>
      mkResults (question r) (observations r) (hypothesis r) (predictions r)
        v (experimental_data r) (analysis r) (conclusion r)
  | Kexperimental_data =>
      mkResults (question r) (observations r) (hypothesis r) (predictions r)
        (experiments r) v (analysis r) (conclusion r)
  | Kanalysis =>
      mkResults (question r) (observations r) (hypothesis r) (predictions r)
        (experiments r) (experimental_data r) v (conclusion r)
  | Kconclusion =>
      mkResults (question r) (observations r) (hypothesis r) (predictions r)
        (experiments r) (experimental_data r) (analysis r) v
  end.

(** The dictionary literal of [__init__]. *)
Definition empty_results : Results :=
  mkResults None None None None None None None None.

(** A key is populated when its value is not [None]. *)
Definition populated (k : key) (r : Results) : bool :=
  match get k r with
  | Some _ => true
  | None => false
  end.

(** ** f-strings *)

Inductive piece :=
| Lit (s : string)      (* literal text, or an interpolated local variable *)
| Field (k : key).      (* [{self.results['k']}] *)

Definition render_piece (r : Results) (p : piece) : string :=
  match p with
  | Lit s => s
  | Field k => py_str (get k r)
  end.

Definition render (r : Results) (t : list piece) : string :=
  String.concat blank (map (render_piece r) t).

(** The keys a template interpolates. *)
Definition fields_of (t : list piece) : list key :=
  flat_map (fun p => match p with Lit _ => [] | Field k => [k] end) t.

(** ** The prompts

    Each definition is the f-string of the method of the same name, line by
    line; several labels end in a space before the line break, as in the
    source. *)

Definition observe_prompt (question : string) : list piece :=
  [ Lit (lines [ "You are a scientist beginning an investigation.";
                 blank;
                 "Question: ";
                 blank ]);
    Lit question;
    Lit (lines [ blank;
                 blank;
                 "Provide initial observations and context relevant to this question.";
                 "Include known facts, background information, and what we already know about this topic.";
                 "Be concise but thorough." ]) ].

Definition hypothesize_prompt : list piece :=
  [ Lit (lines [ "Based on the following question and observations, formulate a clear, testable hypothesis.";
                 blank;
                 "Question: ";
                 blank ]);
    Field Kquestion;
    Lit (lines [ blank; blank; "Observations:"; blank ]);
    Field Kobservations;
    Lit (lines [ blank;
                 blank;
                 "Provide a specific hypothesis that:";
                 "1. Is falsifiable";
                 "2. Makes a clear prediction";
                 "3. Can be tested through experimentation or further observation";
                 blank;
                 "Format your response as a single clear hypothesis statement." ]) ].

Definition predict_prompt : list piece :=
  [ Lit (lines [ "Given this hypothesis, what specific, testable predictions can we make?";
                 blank;
                 "Question: ";
                 blank ]);
    Field Kquestion;
    Lit (lines [ blank; blank; "Hypothesis: "; blank ]);
    Field Khypothesis;
    Lit (lines [ blank;
                 blank;
                 "Generate 3-5 specific predictions that would support or refute this hypothesis.";
                 "Each prediction should be:";
                 "1. Specific and measurable";
                 "2. Directly testable";
                 "3. Clearly linked to the hypothesis";
                 blank;
                 "Format as a numbered list." ]) ].

Definition experiment_prompt : list piece :=
  [ Lit (lines [ "Design experiments to test these predictions.";
                 blank;
                 "Question: ";
                 blank ]);
    Field Kquestion;
    Lit (lines [ blank; blank; "Hypothesis: "; blank ]);
    Field Khypothesis;
    Lit (lines [ blank; blank; "Predictions:"; blank ]);
    Field Kpredictions;
    Lit (lines [ blank;
                 blank;
                 "For each prediction, describe:";
                 "1. The experimental method";
                 "2. What data to collect";
                 "3. How to control variables";
                 "4. Expected outcomes if hypothesis is correct vs. incorrect";
                 blank;
                 "Be specific and practical." ]) ].

Definition generate_experimental_data_prompt : list piece :=
  [ Lit (lines [ "You are conducting the following experiments. Generate realistic simulated experimental data.";
                 blank;
                 "Question: ";
                 blank ]);
    Field Kquestion;
    Lit (lines [ blank; blank; "Hypothesis: "; blank ]);
    Field Khypothesis;
    Lit (lines [ blank; blank; "Predictions:"; blank ]);
    Field Kpredictions;
    Lit (lines [ blank; blank; "Experimental Design:"; blank ]);
    Field Kexperiments;
    Lit (lines [ blank;
                 blank;
                 "Generate realistic experimental data that would result from conducting these experiments.";
                 "Include:";
                 "1. Quantitative measurements (with realistic variability)";
                 "2. Observations";
                 "3. Data tables or results summaries";
                 "4. Any unexpected findings or anomalies";
                 blank;
                 "Make the data realistic and internally consistent. Format it clearly." ]) ].

(** The sentence [analyze] uses when there is no experimental data. *)
Definition no_data_note : string :=
  nl +:+ "Note: No experimental data available. Provide theoretical analysis.".

(** The local variable [data_context] of [analyze]. *)
Definition data_context (r : Results) : string :=
  let experimental_data := get Kexperimental_data r in
  if truthy experimental_data
  then nl +:+ "Experimental Results:" +:+ nl +:+ py_str experimental_data
  else no_data_note.

Definition analyze_prefix : list piece :=
  [ Lit (lines [ "Analyze the experimental approach and draw conclusions.";
                 blank;
                 "Question: ";
                 blank ]);
    Field Kquestion;
    Lit (lines [ blank; blank; "Hypothesis: "; blank ]);
    Field Khypothesis;
    Lit (lines [ blank; blank; "Predictions:"; blank ]);
    Field Kpredictions;
    Lit (lines [ blank; blank; "Experimental Design:"; blank ]);
    Field Kexperiments;
    Lit nl ].

Definition analyze_suffix : list piece :=
  [ Lit (lines [ blank;
                 blank;
                 "Provide:";
                 "1. Analysis of how the experiments would test the hypothesis";
                 "2. What results would support vs. refute the hypothesis";
                 "3. Potential limitations or sources of error";
                 "4. Suggestions for follow-up investigations" ]) ].

Definition analyze_prompt (r : Results) : list piece :=
  analyze_prefix ++ [Lit (data_context r)] ++ analyze_suffix.

Definition conclude_prompt : list piece :=
  [ Lit (lines [ "Synthesize the entire scientific investigation into a conclusion.";
                 blank;
                 "Question: ";
                 blank ]);
    Field Kquestion;
    Lit (lines [ blank; blank; "Hypothesis: "; blank ]);
    Field Khypothesis;
    Lit (lines [ blank; blank; "Analysis: "; blank ]);
    Field Kanalysis;
    Lit (lines [ blank;
                 blank;
                 "Provide:";
                 "1. Whether the hypothesis is supported, refuted, or requires modification";
                 "2. Key findings and insights";
                 "3. Implications of the results";
                 "4. Next steps for further research";
                 blank;
                 "Be clear and concise." ]) ].


(** ** The world outside the program *)

(** A request to the completion service: [client.responses.create] with the
    web-search tool, or [client.chat.completions.create] with one user
    message. *)
Inductive call :=
| ResponsesCreate (model : string) (web_search : bool) (input : string)
| ChatCompletionsCreate (model : string) (content : string).

(** What the program gets out of a request: the text it reads from the
    response ([output_text], [choices[0].message.content]); no text at all,
    when the request is answered with a message whose [content] is [None];
    or an exception (time-out, authentication failure, malformed
    response). *)
Inductive reply :=
| Text (t : string)
| Null
| Failure (detail : string).

Inductive exn :=
| ServiceError (detail : string)                (* raised by a request *)
| ClientError (detail : string)                 (* raised by [OpenAI(...)] *)
| SystemExit (status : nat) (message : string). (* [parser.error] *)

(** The document [json.dump] is given; its rendering as text belongs to the
    json library. *)
Inductive jvalue :=
| JNull
| JString (s : string).

(** A JSON object: its members in order. *)
Definition json : Type := list (string * jvalue).

(** One [write] to a file: a text, or a dumped document. *)
Inductive chunk :=
| Written (s : string)
| Dumped (doc : json) (indent : nat).

Record world := mkWorld {
  environ : gmap string string;        (* os.environ *)
  files : gmap string (list chunk);    (* the writes each file holds *)
  console : list string;               (* what print has shown *)
  requests : list call                 (* the requests sent so far *)
}.

(** The attributes of a [ScientificMethod] object (the client apart). *)
Record ScientificMethod := mkScientificMethod {
  model : string;
  log_file : string;
  results : Results
}.

(** The state a method runs in: its object and the world. *)
Record state := mkState {
  self : ScientificMethod;
  outside : world
}.

(** ** State and exceptions *)

Inductive outcome (A : Type) :=
| Ok (a : A)
| Raise (e : exn).
Arguments Ok {A} a.
Arguments Raise {A} e.

Definition M (S A : Type) : Type := S -> outcome A * S.

Definition ret {S A} (a : A) : M S A := fun s => (Ok a, s).

Definition raise {S A} (e : exn) : M S A := fun s => (Raise e, s).

Definition bind {S A B} (c : M S A) (k : A -> M S B) : M S B :=
  fun s =>
    match c s with
    | (Ok a, s') => k a s'
    | (Raise e, s') => (Raise e, s')
    end.

Definition gets {S A} (f : S -> A) : M S A := fun s => (Ok (f s), s).

Definition modify {S} (f : S -> S) : M S unit := fun s => (Ok tt, f s).

Declare Scope prog_scope.
Delimit Scope prog_scope with prog.
Notation "x <- c ;; k" := (bind c (fun x => k))
  (at level 100, c at next level, right associativity) : prog_scope.
Notation "c ;; k" := (bind c (fun _ => k))
  (at level 100, right associativity) : prog_scope.

(** ** Files *)

(** [open(name, 'w')] followed by one write, for a name that can be opened:
    the old content is gone.  The properties below speak of the names the
    program chooses itself (the time-stamped log file and the default
    results file, both in the working directory) and of the log file that
    the constructor has opened; a name in a directory that does not exist,
    for which [open] raises, is not covered by them. *)
Definition write_file (name : string) (c : chunk)
    (fs : gmap string (list chunk)) : gmap string (list chunk) :=
  <[name := [c]]> fs.

(** [open(name, 'a')] followed by one write: the file is created when it
    does not exist. *)
Definition append_file (name : string) (c : chunk)
    (fs : gmap string (list chunk)) : gmap string (list chunk) :=
  <[name := default [] (fs !! name) ++ [c]]> fs.

(** [json.dump(self.results, f, indent=2)]: the members follow the order of
    the dictionary, [None] becomes null. *)
Definition to_json (r : Results) : json :=
  map (fun k => (key_name k,
                 match get k r with
                 | Some s => JString s
                 | None => JNull
                 end)) all_keys.

(** State updates used by the methods. *)
Definition with_results (f : Results -> Results) (st : state) : state :=
  mkState (mkScientificMethod (model (self st)) (log_file (self st))
             (f (results (self st))))
          (outside st).

Definition with_world (f : world -> world) (st : state) : state :=
  mkState (self st) (f (outside st)).

Definition print (message : string) (w : world) : world :=
  mkWorld (environ w) (files w) (console w ++ [message]) (requests w).

Definition on_files (f : gmap string (list chunk) -> gmap string (list chunk))
    (w : world) : world :=
  mkWorld (environ w) (f (files w)) (console w) (requests w).

Definition sent (c : call) (w : world) : world :=
  mkWorld (environ w) (files w) (console w) (requests w ++ [c]).

(** The parsed command line ([args]). *)
Record Namespace := mkNamespace {
  args_question : option string;       (* the positional argument *)
  args_question_flag : option string;  (* --question / -q *)
  args_generate_data : bool            (* false with --no-data *)
}.

(** ** Fixtures

    Concrete services, objects and worlds on which the program is run in
    the examples. *)

(** A service that answers its n-th request with the n-th entry of a
    script, and fails when the script is exhausted. *)
Definition scripted (replies : list reply) : list call -> call -> reply :=
  fun history _ => nth (length history) replies (Failure "no reply").

(** Answers of which the second, to [hypothesize], carries no text. *)
Definition null_hypothesis_replies : list reply :=
  [Text "observed"; Null; Text "predictions P"; Text "experiments E";
   Text "data D"; Text "analysis A"; Text "conclusion C"].

Definition seven_replies : list reply :=
  [Text "observed"; Text "hypothesis H"; Text "predictions P";
   Text "experiments E"; Text "data D"; Text "analysis A";
   Text "conclusion C"].

(** A service that answers every request with the same text. *)
Definition always (t : string) : list call -> call -> reply :=
  fun _ _ => Text t.

(** A service that answers its first [n] requests and fails from then
    on. *)
Definition answers_then_fails (n : nat) : list call -> call -> reply :=
  fun history _ =>
    if Nat.ltb (length history) n then Text "ok" else Failure "service down".

(** A value of the clock. *)
Definition noon : string := "20250101_120000".

(** A command line with the question given by the flag and data generation
    switched off. *)
Definition no_data_args : Namespace :=
  mkNamespace None (Some "Does rapamycin increase lifespan?") false.

Definition first_log : chunk :=
  Written ("=== Scientific Method Log ===" +:+ nl +:+ nl).

(** A new object whose log file is [run.log]. *)
Definition new_object : state :=
  mkState (mkScientificMethod "gpt-5" "run.log" empty_results)
          (mkWorld ∅ {[ "run.log" := [first_log] ]} [] []).

(** An object that has completed a run with data generation. *)
Definition used_object : state :=
  mkState (mkScientificMethod "gpt-5" "run.log"
             (mkResults (Some "Q") (Some "O") (Some "H") (Some "P")
                        (Some "E") (Some "D") (Some "A") (Some "C")))
          (mkWorld ∅ {[ "run.log" := [first_log] ]} [] []).

(** An object whose data stage stored the empty text. *)
Definition empty_data_object : state :=
  mkState (mkScientificMethod "gpt-5" "run.log"
             (mkResults (Some "Q") (Some "O") (Some "H") (Some "P")
                        (Some "E") (Some blank) None None))
          (mkWorld ∅ {[ "run.log" := [first_log] ]} [] []).

(** A [.env] file that defines the question. *)
Definition dotenv_with_question : gmap string string :=
  {[ "SCIENTIFIC_METHOD_QUESTION" := "Why is the sky blue?" ]}.

(** A command line without a question. *)
Definition no_question_args : Namespace := mkNamespace None None true.

(** A command line with the question as positional argument. *)
Definition data_args : Namespace :=
  mkNamespace (Some "What causes earthquakes?") None true.

(** A constructor that raises when it is given no key, as the client
    library does. *)
Definition key_required (api_key : option string) : option string :=
  match api_key with
  | None => Some "The api_key client option must be set"
  | Some _ => None
  end.

(** A constructor that never raises. *)
Definition any_key (api_key : option string) : option string := None.

Definition bare_world : world := mkWorld ∅ ∅ [] [].

(** A world whose environment holds a credential. *)
Definition keyed_world : world :=
  mkWorld {[ "OPENAI_API_KEY" := "sk-test" ]} ∅ [] [].

(** ** The program *)

Section Program.

(** The completion service: its reply to a request, given the requests it
    has received before. *)
Variable service : list call -> call -> reply.

(** [OpenAI(api_key=k)]: [Some detail] when the constructor raises. *)
Variable OpenAI_rejects : option string -> option string.

(** The variables of the [.env] file. *)
Variable dotenv : gmap string string.

(** [datetime.now().strftime("%Y%m%d_%H%M%S")]. *)
Variable now : string.

Local Open Scope prog_scope.

(** [load_dotenv()]: variables already in the environment are kept. *)
Definition load_dotenv : M world unit :=
  modify (fun w =>
    mkWorld (environ w ∪ dotenv) (files w) (console w) (requests w)).

(** [os.getenv(name)]. *)
Definition getenv (name : string) : M world (option string) :=
  gets (fun w => environ w !! name).

(** One blocking request; the request is sent whether or not it succeeds.
    The result is the content of the answer as it is read: a text or
    [None]. *)
Definition request (c : call) : M state (option string) :=
  fun st =>
    let st' := with_world (sent c) st in
    match service (requests (outside st)) c with
    | Text t => (Ok (Some t), st')
    | Null => (Ok None, st')
    | Failure d => (Raise (ServiceError d), st')
    end.

(** [self.client.responses.create(model=self.model,
    tools=[{"type": "web_search"}], input=prompt).output_text]: the
    property joins the text items of the output, so that it is the empty
    text when the answer carries none. *)
Definition responses_create (prompt : string) : M state string :=
  m <- gets (fun st => model (self st)) ;;
  content <- request (ResponsesCreate m true prompt) ;;
  ret (default blank content).

(** [self.client.chat.completions.create(model=self.model,
    messages=[{"role": "user", "content": prompt}]).choices[0].message.content]:
    the content is stored as it is read, a text or [None]. *)
Definition chat_completions_create (prompt : string)
    : M state (option string) :=
  m <- gets (fun st => model (self st)) ;;
  request (ChatCompletionsCreate m prompt).

Definition fstring (t : list piece) : M state string :=
  gets (fun st => render (results (self st)) t).

Definition set_item (k : key) (v : option string) : M state unit :=
  modify (with_results (set k v)).

Definition get_item (k : key) : M state (option string) :=
  gets (fun st => get k (results (self st))).

Definition ScientificMethod_init (api_key log_file : option string)
    : M world ScientificMethod :=
  load_dotenv ;;
  api_key <- match api_key with
             | None => getenv "OPENAI_API_KEY"
             | Some k => ret (Some k)
             end ;;
  match OpenAI_rejects api_key with
  | Some detail => raise (ClientError detail)
  | None => ret tt
  end ;;
  let model := "gpt-5" in
  let log_file := match log_file with
                  | None => "scientific_method_" +:+ now +:+ ".log"
                  | Some f => f
                  end in
  let results := empty_results in
  modify (on_files (write_file log_file
            (Written ("=== Scientific Method Log ===" +:+ nl +:+ nl)))) ;;
  ret (mkScientificMethod model log_file results).

(** The effect of [log_and_print]: the message is printed, and appended
    with a line break to the log file. *)
Definition logged (message : string) (st : state) : state :=
  with_world (fun w =>
    on_files (append_file (log_file (self st)) (Written (message +:+ nl)))
             (print message w)) st.

Definition log_and_print (message : string) : M state unit :=
  modify (logged message).

Definition observe (question : string) : M state (option string) :=
  set_item Kquestion (Some question) ;;
  prompt <- fstring (observe_prompt question) ;;
  response <- responses_create prompt ;;
  set_item Kobservations (Some response) ;;
  get_item Kobservations.

Definition hypothesize : M state (option string) :=
  prompt <- fstring hypothesize_prompt ;;
  response <- chat_completions_create prompt ;;
  set_item Khypothesis response ;;
  get_item Khypothesis.

Definition predict : M state (option string) :=
  prompt <- fstring predict_prompt ;;
  response <- chat_completions_create prompt ;;
  set_item Kpredictions response ;;
  get_item Kpredictions.

Definition experiment : M state (option string) :=
  prompt <- fstring experiment_prompt ;;
  response <- chat_completions_create prompt ;;
  set_item Kexperiments response ;;
  get_item Kexperiments.

Definition generate_experimental_data : M state (option string) :=
  prompt <- fstring generate_experimental_data_prompt ;;
  response <- chat_completions_create prompt ;;
  set_item Kexperimental_data response ;;
  get_item Kexperimental_data.

Definition analyze : M state (option string) :=
  prompt <- gets (fun st =>
              let r := results (self st) in render r (analyze_prompt r)) ;;
  response <- chat_completions_create prompt ;;
  set_item Kanalysis response ;;
  get_item Kanalysis.

Definition conclude : M state (option string) :=
  prompt <- fstring conclude_prompt ;;
  response <- chat_completions_create prompt ;;
  set_item Kconclusion response ;;
  get_item Kconclusion.

Definition run_full_method (question : string) (generate_data : bool)
    : M state Results :=
  log_and_print ("Question: " +:+ question +:+ nl) ;;

  log_and_print "Step 1: Gathering observations..." ;;
  observations <- observe question ;;
  log_and_print (nl +:+ py_str observations +:+ nl) ;;
  log_and_print (str_mul "-" 80) ;;

  log_and_print (nl +:+ "Step 2: Formulating hypothesis...") ;;
  hypothesis <- hypothesize ;;
  log_and_print (nl +:+ py_str hypothesis +:+ nl) ;;
  log_and_print (str_mul "-" 80) ;;

  log_and_print (nl +:+ "Step 3: Generating predictions...") ;;
  predictions <- predict ;;
  log_and_print (nl +:+ py_str predictions +:+ nl) ;;
  log_and_print (str_mul "-" 80) ;;

  log_and_print (nl +:+ "Step 4: Designing experiments...") ;;
  experiments <- experiment ;;
  log_and_print (nl +:+ py_str experiments +:+ nl) ;;
  log_and_print (str_mul "-" 80) ;;

  (if generate_data then
     log_and_print (nl +:+ "Step 4b: Generating experimental data...") ;;
     experimental_data <- generate_experimental_data ;;
     log_and_print (nl +:+ py_str experimental_data +:+ nl) ;;
     log_and_print (str_mul "-" 80)
   else ret tt) ;;

  log_and_print (nl +:+ "Step 5: Analyzing results...") ;;
  analysis <- analyze ;;
  log_and_print (nl +:+ py_str analysis +:+ nl) ;;
  log_and_print (str_mul "-" 80) ;;

  log_and_print (nl +:+ "Step 6: Drawing conclusions...") ;;
  conclusion <- conclude ;;
  log_and_print (nl +:+ py_str conclusion +:+ nl) ;;
  log_and_print (str_mul "=" 80) ;;

  gets (fun st => results (self st)).

Definition save_results (filename : string) : M state unit :=
  doc <- gets (fun st => to_json (results (self st))) ;;
  modify (with_world (on_files (write_file filename (Dumped doc 2)))) ;;
  log_and_print (nl +:+ "Results saved to " +:+ filename).

(** The module-level [env_question], read when the module is loaded. *)
Definition env_question_of (env : gmap string string) : string :=
  default "Does rapamycin increase lifespan?"
          (env !! "SCIENTIFIC_METHOD_QUESTION").

Definition usage_message : string :=
  lines [ "Question is required. Provide it as:";
          "  - Command-line argument: python scientific_method.py 'Your question?'";
          "  - Flag: python scientific_method.py --question 'Your question?'";
          "  - Environment variable: SCIENTIFIC_METHOD_QUESTION='Your question?'" ].

(** [parser.error(message)]: usage and message on stderr, exit status 2. *)
Definition parser_error {A} (message : string) : M world A :=
  raise (SystemExit 2 message).

(** [args.question_flag or args.question or env_question]. *)
Definition resolve_question (args : Namespace) (env_question : string)
    : option string :=
  py_or (args_question_flag args)
        (py_or (args_question args) (Some env_question)).

(** Run a method of [sm] in the world. *)
Definition call_on {A} (sm : ScientificMethod) (c : M state A)
    : M world (A * ScientificMethod) :=
  fun w =>
    match c (mkState sm w) with
    | (Ok a, st) => (Ok (a, self st), outside st)
    | (Raise e, st) => (Raise e, outside st)
    end.

Definition main (env_question : string) (args : Namespace) : M world unit :=
  load_dotenv ;;
  let question := resolve_question args env_question in
  (if negb (truthy question) then parser_error usage_message else ret tt) ;;
  sm <- ScientificMethod_init None None ;;
  r <- call_on sm (run_full_method (py_str question)
                     (args_generate_data args)) ;;
  r' <- call_on (snd r) (save_results "scientific_method_results.json") ;;
  ret tt.

(** Loading the module, then [main()]. *)
Definition script (args : Namespace) : M world unit :=
  fun w => main (env_question_of (environ w)) args w.

(** ** The pipeline, stage by stage

    [run_full_method] is straight-line code that repeats one pattern per
    stage: log a header, run the stage, log its result, log a rule.  The
    definitions below name the parts of that pattern;
    [run_full_method_pipeline] shows that the method is the pattern iterated
    over [pipeline]. *)

Inductive stage :=
| Observe (question : string)
| Hypothesize
| Predict
| Experiment
| GenerateData
| Analyze
| Conclude.

(** The key a stage stores its reply under. *)
Definition stage_key (s : stage) : key :=
  match s with
  | Observe _ => Kobservations
  | Hypothesize => Khypothesis
  | Predict => Kpredictions
  | Experiment => Kexperiments
  | GenerateData => Kexperimental_data
  | Analyze => Kanalysis
  | Conclude => Kconclusion
  end.

(** The message logged before a stage runs. *)
Definition stage_header (s : stage) : string :=
  match s with
  | Observe _ => "Step 1: Gathering observations..."
  | Hypothesize => nl +:+ "Step 2: Formulating hypothesis..."
  | Predict => nl +:+ "Step 3: Generating predictions..."
  | Experiment => nl +:+ "Step 4: Designing experiments..."
  | GenerateData => nl +:+ "Step 4b: Generating experimental data..."
  | Analyze => nl +:+ "Step 5: Analyzing results..."
  | Conclude => nl +:+ "Step 6: Drawing conclusions..."
  end.

(** The rule logged after a stage. *)
Definition stage_rule (s : stage) : string :=
  match s with
  | Conclude => str_mul "=" 80
  | _ => str_mul "-" 80
  end.

Definition run_stage (s : stage) : M state (option string) :=
  match s with
  | Observe question => observe question
  | Hypothesize => hypothesize
  | Predict => predict
  | Experiment => experiment
  | GenerateData => generate_experimental_data
  | Analyze => analyze
  | Conclude => conclude
  end.

Definition logged_stage (s : stage) : M state unit :=
  log_and_print (stage_header s) ;;
  x <- run_stage s ;;
  log_and_print (nl +:+ py_str x +:+ nl) ;;
  log_and_print (stage_rule s).

Fixpoint run_stages (l : list stage) : M state unit :=
  match l with
  | [] => ret tt
  | s :: l' => logged_stage s ;; run_stages l'
  end.

Definition pipeline (question : string) (generate_data : bool) : list stage :=
  [Observe question; Hypothesize; Predict; Experiment]
  ++ (if generate_data then [GenerateData] else [])
  ++ [Analyze; Conclude].

(** What a stage writes to the record before its request: [observe] stores
    the question first. *)
Definition before_request (s : stage) (r : Results) : Results :=
  match s with
  | Observe question => set Kquestion (Some question) r
  | _ => r
  end.

(** The prompt of a stage, for the record it runs on. *)
Definition stage_prompt (s : stage) (r : Results) : string :=
  match s with
  | Observe question => render r (observe_prompt question)
  | Hypothesize => render r hypothesize_prompt
  | Predict => render r predict_prompt
  | Experiment => render r experiment_prompt
  | GenerateData => render r generate_experimental_data_prompt
  | Analyze => render r (analyze_prompt r)
  | Conclude => render r conclude_prompt
  end.

(** The request of a stage. *)
Definition stage_request (s : stage) (sm : ScientificMethod) : call :=
  match s with
  | Observe _ =>
      ResponsesCreate (model sm) true (stage_prompt s (results sm))
  | _ => ChatCompletionsCreate (model sm) (stage_prompt s (results sm))
  end.

(** The state a stage leaves when its request fails. *)
Definition interrupted (s : stage) (st : state) : state :=
  let st1 := with_results (before_request s) st in
  with_world (sent (stage_request s (self st1))) st1.

(** The state a stage leaves when it has read [v] from the answer to its
    request. *)
Definition answered (s : stage) (v : option string) (st : state) : state :=
  with_results (set (stage_key s) v) (interrupted s st).

(** What a stage reads from an answer: [observe] reads [output_text], which
    is a text in any case; the other stages read the content as it is. *)
Definition content_of (s : stage) (rp : reply) : option string :=
  match rp, s with
  | Text t, _ => Some t
  | Null, Observe _ => Some blank
  | _, _ => None
  end.

(** The reply to the request of a stage started in [st]. *)
Definition stage_reply (s : stage) (st : state) : reply :=
  service (requests (outside st))
          (stage_request s (self (with_results (before_request s) st))).

(** How a stage started in [st] ends: with what it read from the answer, or
    with the failure of its request. *)
Definition stage_result (s : stage) (st : state) : option string + string :=
  match stage_reply s st with
  | Failure d => inr d
  | rp => inl (content_of s rp)
  end.

(** The service never answers without a text. *)
Definition always_text : Prop := forall h c, service h c <> Null.

(** The keys a stage assigns. *)
Definition writes (s : stage) : list key :=
  match s with
  | Observe _ => [Kquestion; Kobservations]
  | _ => [stage_key s]
  end.

(** The keys the prompt of a stage depends on. *)
Definition reads (s : stage) : list key :=
  match s with
  | Observe question => fields_of (observe_prompt question)
  | Hypothesize => fields_of hypothesize_prompt
  | Predict => fields_of predict_prompt
  | Experiment => fields_of experiment_prompt
  | GenerateData => fields_of generate_experimental_data_prompt
  | Analyze =>
      Kexperimental_data :: fields_of analyze_prefix ++ fields_of analyze_suffix
  | Conclude => fields_of conclude_prompt
  end.

(** No stage of [l] assigns [k]. *)
Definition untouched_by (k : key) (l : list stage) : Prop :=
  Forall (fun s => k ∉ writes s) l.

(** Every stage of [l] stores its reply under a key that no later stage
    assigns, and reads only keys that neither it nor a later stage assigns. *)
Fixpoint forward (l : list stage) : Prop :=
  match l with
  | [] => True
  | s :: l' =>
      untouched_by (stage_key s) l'
      /\ Forall (fun k => untouched_by k (s :: l')) (reads s)
      /\ forward l'
  end.


(** The transcript: the writes held by the log file of the object. *)
Definition transcript (st : state) : list chunk :=
  default [] (files (outside st) !! log_file (self st)).

(** The transcript entries of a completed stage, read off the record. *)
Definition stage_entries (r : Results) (s : stage) : list chunk :=
  [ Written (stage_header s +:+ nl);
    Written ((nl +:+ py_str (get (stage_key s) r) +:+ nl) +:+ nl);
    Written (stage_rule s +:+ nl) ].

(** The prompt a request carries. *)
Definition prompt_of (c : call) : string :=
  match c with
  | ResponsesCreate _ _ input => input
  | ChatCompletionsCreate _ content => content
  end.

(** The write [log_and_print] makes for a message. *)
Definition line (message : string) : chunk := Written (message +:+ nl).

(** The default of [os.getenv] on line 20. *)
Definition default_question : string := "Does rapamycin increase lifespan?".

(** The first message of [run_full_method]. *)
Definition question_line (question : string) : string :=
  "Question: " +:+ question +:+ nl.

(** The world after [load_dotenv()]. *)
Definition dotenv_loaded (w : world) : world :=
  mkWorld (environ w ∪ dotenv) (files w) (console w) (requests w).

(** The credential [__init__] finds when it is given none. *)
Definition credential (w : world) : option string :=
  (environ w ∪ dotenv) !! "OPENAI_API_KEY".

(** The log file [__init__] names when it is given none. *)
Definition default_log_file : string :=
  "scientific_method_" +:+ now +:+ ".log".

(** The world and the object [ScientificMethod()] leaves when the client
    constructor accepts the credential. *)
Definition constructed (w : world) : state :=
  mkState (mkScientificMethod "gpt-5" default_log_file empty_results)
    (on_files (write_file default_log_file
                 (Written ("=== Scientific Method Log ===" +:+ nl +:+ nl)))
       (dotenv_loaded w)).

(** The effect of [save_results]. *)
Definition saved (filename : string) (st : state) : state :=
  logged (nl +:+ "Results saved to " +:+ filename)
    (with_world
       (on_files (write_file filename
                    (Dumped (to_json (results (self st))) 2))) st).

(** The file [main] saves the results to. *)
Definition results_file : string := "scientific_method_results.json".

(** The first non-empty value of a list of sources. *)
Definition first_nonempty (sources : list (option string)) : option string :=
  match List.find truthy sources with
  | Some v => v
  | None => None
  end.

(** An absent or empty value counts as absent. *)
Definition nonempty (v : option string) : option string :=
  if truthy v then v else None.

(** A transcript entry that is the header of some stage. *)
Definition is_stage_header (c : chunk) : bool :=
  match c with
  | Written s =>
      existsb (fun h => String.eqb s (stage_header h +:+ nl))
        [Observe blank; Hypothesize; Predict; Experiment;
         GenerateData; Analyze; Conclude]
  | Dumped _ _ => false
  end.

Definition stage_headers (log : list chunk) : list chunk :=
  List.filter is_stage_header log.

(** Members of a dumped document that are null, and that are not. *)
Definition null_members (doc : json) : list string :=
  map fst (List.filter (fun m => match snd m with JNull => true | _ => false end) doc).

Definition non_null_members (doc : json) : list string :=
  map fst (List.filter (fun m => match snd m with JNull => false | _ => true end) doc).

(** The record keys follow the pipeline order: whenever a key is populated,
    so is every key before it; [experimental_data] is exempt when data
    generation is off. *)
Definition in_pipeline_order (generate_data : bool) (r : Results) : Prop :=
  forall i j ki kj,
    all_keys !! i = Some ki -> all_keys !! j = Some kj -> i < j ->
    populated kj r = true ->
    populated ki r = true \/ (ki = Kexperimental_data /\ generate_data = false).

(** Executable version of [in_pipeline_order]. *)
Fixpoint ordered_from (generate_data : bool) (r : Results) (ks : list key)
    : bool :=
  match ks with
  | [] => true
  | k :: ks' =>
      (populated k r
       || (bool_decide (k = Kexperimental_data) && negb generate_data)
       || forallb (fun k' => negb (populated k' r)) ks')
      && ordered_from generate_data r ks'
  end.

(** * Properties *)

(** ** Texts *)

Lemma str_app_cons (c : ascii) (s t : string) :
  String c s +:+ t = String c (s +:+ t).
Proof. reflexivity. Qed.

Lemma str_app_nil_r (s : string) : s +:+ blank = s.
Proof.
  induction s as [|c s IH]; [reflexivity|]. now rewrite str_app_cons, IH.
Qed.

Lemma str_app_assoc (s t u : string) : (s +:+ t) +:+ u = s +:+ t +:+ u.
Proof.
  induction s as [|c s IH]; [reflexivity|]. now rewrite !str_app_cons, IH.
Qed.

(** Two texts that end in different characters differ. *)
Lemma str_app_last_inj (s t : string) (c d : ascii) :
  s +:+ String c blank = t +:+ String d blank -> s = t /\ c = d.
Proof.
  revert t. induction s as [|a s IH]; intros [|b t] H.
  - now inversion H.
  - inversion H as [[Ha Ht]]. destruct t; discriminate.
  - inversion H as [[Ha Hs]]. destruct s; discriminate.
  - rewrite !str_app_cons in H. inversion H as [[Ha Hs]].
    destruct (IH _ Hs) as [-> ->]. now split.
Qed.

Lemma occurs_in_refl (s : string) : occurs_in s s.
Proof. exists blank, blank. now rewrite str_app_nil_r. Qed.

Lemma occurs_in_app_l (s t u : string) : occurs_in s t -> occurs_in s (u +:+ t).
Proof.
  intros (a & b & ->). exists (u +:+ a), b. now rewrite str_app_assoc.
Qed.

Lemma occurs_in_app_r (s t u : string) : occurs_in s t -> occurs_in s (t +:+ u).
Proof.
  intros (a & b & ->). exists a, (b +:+ u). now rewrite !str_app_assoc.
Qed.

Lemma occurs_in_blank (t : string) : occurs_in blank t.
Proof. exists blank, t. reflexivity. Qed.

(** ** The record *)

Lemma get_set_eq (k : key) (v : option string) (r : Results) :
  get k (set k v r) = v.
Proof. destruct k; reflexivity. Qed.

Lemma get_set_ne (k k' : key) (v : option string) (r : Results) :
  k <> k' -> get k' (set k v r) = get k' r.
Proof. destruct k, k'; intros H; try reflexivity; contradiction. Qed.

Lemma populated_set_some (k k' : key) (t : string) (r : Results) :
  populated k' r = true -> populated k' (set k (Some t) r) = true.
Proof.
  unfold populated. destruct (decide (k = k')) as [->|Hne].
  - now rewrite get_set_eq.
  - now rewrite get_set_ne.
Qed.

Lemma results_ext (r r' : Results) :
  (forall k, get k r = get k r') -> r = r'.
Proof.
  intros H. destruct r, r'.
  pose proof (H Kquestion). pose proof (H Kobservations).
  pose proof (H Khypothesis). pose proof (H Kpredictions).
  pose proof (H Kexperiments). pose proof (H Kexperimental_data).
  pose proof (H Kanalysis). pose proof (H Kconclusion).
  simpl in *. congruence.
Qed.

(** ** Templates *)

Lemma render_app (r : Results) (t1 t2 : list piece) :
  render r (t1 ++ t2) = render r t1 +:+ render r t2.
Proof.
  unfold render. induction t1 as [|p t1 IH]; [reflexivity|].
  destruct t1 as [|p' t1].
  - simpl. destruct t2 as [|q t2]; simpl.
    + now rewrite str_app_nil_r.
    + reflexivity.
  - change (map (render_piece r) ((p :: p' :: t1) ++ t2))
      with (render_piece r p :: map (render_piece r) ((p' :: t1) ++ t2)).
    change (map (render_piece r) (p :: p' :: t1))
      with (render_piece r p :: render_piece r p' :: map (render_piece r) t1).
    simpl String.concat at 1.
    simpl in IH. simpl. rewrite IH.
    now rewrite str_app_assoc.
Qed.

(** ** One stage *)

Lemma run_stage_spec (s : stage) (st : state) :
  run_stage s st =
    match stage_result s st with
    | inl v => (Ok v, answered s v st)
    | inr d => (Raise (ServiceError d), interrupted s st)
    end.
Proof.
  unfold stage_result, stage_reply. destruct st as [[m lf r] w].
  destruct s; cbv [run_stage observe hypothesize predict experiment
    generate_experimental_data analyze conclude bind gets modify ret
    set_item get_item fstring responses_create chat_completions_create
    request];
    simpl; match goal with |- context [service ?h ?c] =>
             destruct (service h c) end; reflexivity.
Qed.

Lemma stage_result_text (s : stage) (st : state) (t : string) :
  stage_reply s st = Text t -> stage_result s st = inl (Some t).
Proof. unfold stage_result. now intros ->. Qed.

Lemma stage_result_null (s : stage) (st : state) :
  stage_reply s st = Null -> stage_result s st = inl (content_of s Null).
Proof. unfold stage_result. now intros ->. Qed.

Lemma stage_result_failure (s : stage) (st : state) (d : string) :
  stage_result s st = inr d <-> stage_reply s st = Failure d.
Proof.
  unfold stage_result. destruct (stage_reply s st); split; intros H;
    inversion H; reflexivity.
Qed.

(** With a service that never answers without a text, every stage that is
    answered has read a text. *)
Lemma stage_result_always_text (s : stage) (st : state) (v : option string) :
  always_text -> stage_result s st = inl v -> exists t, v = Some t.
Proof.
  intros Htext. unfold stage_result, stage_reply.
  destruct (service _ _) as [t| |d] eqn:E; intros H; inversion H.
  - now exists t.
  - exfalso. exact (Htext _ _ E).
Qed.

Lemma logged_stage_spec (s : stage) (st : state) :
  logged_stage s st =
    let st0 := logged (stage_header s) st in
    match stage_result s st0 with
    | inl v =>
        (Ok tt, logged (stage_rule s)
                  (logged (nl +:+ py_str v +:+ nl) (answered s v st0)))
    | inr d => (Raise (ServiceError d), interrupted s st0)
    end.
Proof.
  unfold logged_stage, bind at 1, log_and_print at 1, modify at 1.
  unfold bind at 1. rewrite run_stage_spec.
  cbv zeta. destruct (stage_result s (logged (stage_header s) st)); reflexivity.
Qed.

Lemma run_stage_requests (s : stage) (st : state) :
  requests (outside (snd (run_stage s st)))
  = requests (outside st)
    ++ [stage_request s (self (with_results (before_request s) st))].
Proof.
  rewrite run_stage_spec. destruct (stage_result s st); reflexivity.
Qed.

Lemma prompt_of_stage_request (s : stage) (sm : ScientificMethod) :
  prompt_of (stage_request s sm) = stage_prompt s (results sm).
Proof. destruct s; reflexivity. Qed.

(** ** What a stage leaves of the state *)

Lemma self_logged (m : string) (st : state) : self (logged m st) = self st.
Proof. reflexivity. Qed.

Lemma requests_logged (m : string) (st : state) :
  requests (outside (logged m st)) = requests (outside st).
Proof. reflexivity. Qed.

Lemma transcript_logged (m : string) (st : state) :
  transcript (logged m st) = transcript st ++ [Written (m +:+ nl)].
Proof.
  unfold transcript, logged, with_world, on_files, append_file. simpl.
  now rewrite lookup_insert_eq.
Qed.

Lemma results_interrupted (s : stage) (st : state) :
  results (self (interrupted s st)) = before_request s (results (self st)).
Proof. reflexivity. Qed.

Lemma results_answered (s : stage) (t : option string) (st : state) :
  results (self (answered s t st))
  = set (stage_key s) t (before_request s (results (self st))).
Proof. reflexivity. Qed.

Lemma transcript_interrupted (s : stage) (st : state) :
  transcript (interrupted s st) = transcript st.
Proof. reflexivity. Qed.

Lemma transcript_answered (s : stage) (t : option string) (st : state) :
  transcript (answered s t st) = transcript st.
Proof. reflexivity. Qed.

Lemma requests_interrupted (s : stage) (st : state) :
  requests (outside (interrupted s st))
  = requests (outside st)
    ++ [stage_request s (self (with_results (before_request s) st))].
Proof. reflexivity. Qed.

Lemma get_before_request (s : stage) (k : key) (r : Results) :
  k ∉ writes s -> get k (before_request s r) = get k r.
Proof.
  destruct s; try reflexivity. intros H. apply get_set_ne.
  intros <-. apply H. simpl. left.
Qed.

Lemma stage_key_not_question (s : stage) : stage_key s <> Kquestion.
Proof. destruct s; discriminate. Qed.

Lemma get_before_request_other (s : stage) (k : key) (r : Results) :
  k <> Kquestion -> get k (before_request s r) = get k r.
Proof.
  intros Hk. destruct s; try reflexivity. apply get_set_ne. congruence.
Qed.

Lemma get_interrupted (s : stage) (k : key) (st : state) :
  k ∉ writes s ->
  get k (results (self (interrupted s st))) = get k (results (self st)).
Proof. intros H. rewrite results_interrupted. now apply get_before_request. Qed.

Lemma stage_key_writes (s : stage) : stage_key s ∈ writes s.
Proof. destruct s; simpl; set_solver. Qed.

Lemma get_answered (s : stage) (t : option string) (k : key) (st : state) :
  k ∉ writes s ->
  get k (results (self (answered s t st))) = get k (results (self st)).
Proof.
  intros H. rewrite results_answered, get_set_ne.
  - now apply get_before_request.
  - intros <-. apply H, stage_key_writes.
Qed.

Lemma get_answered_key (s : stage) (t : option string) (st : state) :
  get (stage_key s) (results (self (answered s t st))) = t.
Proof. rewrite results_answered. apply get_set_eq. Qed.

Lemma populated_before_request (s : stage) (k : key) (r : Results) :
  populated k r = true -> populated k (before_request s r) = true.
Proof. destruct s; try easy. apply populated_set_some. Qed.

(** ** Sequences of stages *)

Lemma run_stages_cons (s : stage) (l : list stage) (st : state) :
  run_stages (s :: l) st =
    match stage_result s (logged (stage_header s) st) with
    | inl v =>
        run_stages l
          (logged (stage_rule s)
             (logged (nl +:+ py_str v +:+ nl)
                (answered s v (logged (stage_header s) st))))
    | inr d =>
        (Raise (ServiceError d),
         interrupted s (logged (stage_header s) st))
    end.
Proof.
  change (run_stages (s :: l) st) with (bind (logged_stage s) (fun _ => run_stages l) st).
  unfold bind. rewrite logged_stage_spec. cbv zeta.
  destruct (stage_result s (logged (stage_header s) st)); reflexivity.
Qed.

Lemma run_stages_app (l1 l2 : list stage) (st : state) :
  run_stages (l1 ++ l2) st =
    match run_stages l1 st with
    | (Ok _, st1) => run_stages l2 st1
    | (Raise e, st1) => (Raise e, st1)
    end.
Proof.
  revert st. induction l1 as [|s l1 IH]; intros st; [reflexivity|].
  rewrite <- app_comm_cons, !run_stages_cons.
  destruct (stage_result s (logged (stage_header s) st)); [apply IH | reflexivity].
Qed.

(** A key that no stage of the sequence assigns keeps its value, however the
    sequence ends. *)
Lemma run_stages_frame (l : list stage) (k : key) :
  untouched_by k l ->
  forall st o st',
    run_stages l st = (o, st') ->
    get k (results (self st')) = get k (results (self st)).
Proof.
  induction 1 as [|s l Hs Hl IH]; intros st o st' Hrun.
  - inversion Hrun. reflexivity.
  - rewrite run_stages_cons in Hrun.
    destruct (stage_result s (logged (stage_header s) st)) as [t|d].
    + apply IH in Hrun. rewrite Hrun. rewrite !self_logged.
      now rewrite get_answered.
    + inversion Hrun. now rewrite get_interrupted.
Qed.

(** With a service that never answers without a text, stages never clear
    a key. *)
Lemma run_stages_keeps_populated (l : list stage) (k : key) :
  always_text ->
  forall st o st',
    run_stages l st = (o, st') ->
    populated k (results (self st)) = true ->
    populated k (results (self st')) = true.
Proof.
  intros Htext. induction l as [|s l IH]; intros st o st' Hrun Hk.
  - inversion Hrun. now subst.
  - rewrite run_stages_cons in Hrun.
    destruct (stage_result s (logged (stage_header s) st)) as [v|d] eqn:E.
    + apply (stage_result_always_text _ _ _ Htext) in E as [t ->].
      apply IH in Hrun; [exact Hrun|]. rewrite !self_logged, results_answered.
      now apply populated_set_some, populated_before_request.
    + inversion Hrun. rewrite results_interrupted.
      now apply populated_before_request.
Qed.

(** The object keeps its model and its log file. *)
Lemma run_stages_object (l : list stage) :
  forall st o st',
    run_stages l st = (o, st') ->
    model (self st') = model (self st)
    /\ log_file (self st') = log_file (self st).
Proof.
  induction l as [|s l IH]; intros st o st' Hrun.
  - inversion Hrun. now subst.
  - rewrite run_stages_cons in Hrun.
    destruct (stage_result s (logged (stage_header s) st)) as [t|d].
    + apply IH in Hrun. exact Hrun.
    + inversion Hrun. now split.
Qed.

(** A template is rendered alike on records that agree on its fields. *)
Lemma render_ext (t : list piece) (r r' : Results) :
  Forall (fun k => get k r = get k r') (fields_of t) ->
  render r t = render r' t.
Proof.
  unfold render. intros H. f_equal.
  induction t as [|p t IH]; [reflexivity|].
  destruct p as [s|k]; simpl in *.
  - f_equal. now apply IH.
  - inversion H as [|? ? Hk Ht]; subst. rewrite Hk. f_equal. now apply IH.
Qed.

Lemma data_context_ext (r r' : Results) :
  get Kexperimental_data r = get Kexperimental_data r' ->
  data_context r = data_context r'.
Proof. unfold data_context. now intros ->. Qed.

Lemma stage_prompt_ext (s : stage) (r r' : Results) :
  Forall (fun k => get k r = get k r') (reads s) ->
  stage_prompt s r = stage_prompt s r'.
Proof.
  destruct s; intros H; try (now apply render_ext).
  unfold reads in H. apply Forall_cons in H as [Hd Hrest].
  apply Forall_app in Hrest as [Hp Hs].
  unfold stage_prompt, analyze_prompt.
  rewrite !render_app, (render_ext analyze_prefix r r' Hp),
    (render_ext analyze_suffix r r' Hs).
  unfold render at 2 4. simpl map. now rewrite (data_context_ext r r' Hd).
Qed.

Lemma run_stages_populates (l : list stage) :
  always_text ->
  forall st st',
    run_stages l st = (Ok tt, st') ->
    Forall (fun s => populated (stage_key s) (results (self st')) = true) l.
Proof.
  intros Htext. induction l as [|s l IH]; intros st st' Hrun; [constructor|].
  rewrite run_stages_cons in Hrun.
  destruct (stage_result s (logged (stage_header s) st)) as [v|d] eqn:E;
    [|discriminate].
  apply (stage_result_always_text _ _ _ Htext) in E as [t ->].
  constructor; [|now apply IH in Hrun].
  eapply run_stages_keeps_populated; [exact Htext|exact Hrun|].
  rewrite !self_logged. unfold populated. now rewrite get_answered_key.
Qed.

(** The transcript of a completed sequence: the three entries of every
    stage, in order, with the values the record holds at the end. *)
Lemma run_stages_transcript (l : list stage) :
  forward l ->
  forall st st',
    run_stages l st = (Ok tt, st') ->
    transcript st'
    = transcript st ++ flat_map (stage_entries (results (self st'))) l.
Proof.
  induction l as [|s l IH]; intros Hf st st' Hrun.
  - inversion Hrun. simpl. now rewrite app_nil_r.
  - destruct Hf as (Hkey & _ & Hf).
    rewrite run_stages_cons in Hrun.
    destruct (stage_result s (logged (stage_header s) st)) as [t|d];
      [|discriminate].
    pose proof (run_stages_frame l _ Hkey _ _ _ Hrun) as Hget.
    rewrite !self_logged, get_answered_key in Hget.
    rewrite (IH Hf _ _ Hrun), !transcript_logged, transcript_answered,
      transcript_logged.
    simpl flat_map. unfold stage_entries at 2. rewrite Hget. simpl py_str.
    now rewrite <- !app_assoc.
Qed.

(** The requests of a completed sequence: one per stage, in order, each with
    the prompt its stage renders on the final record. *)
Lemma run_stages_requests (l : list stage) :
  forward l ->
  forall st st',
    run_stages l st = (Ok tt, st') ->
    requests (outside st')
    = requests (outside st) ++ map (fun s => stage_request s (self st')) l.
Proof.
  induction l as [|s l IH]; intros Hf st st' Hrun.
  - inversion Hrun. simpl. now rewrite app_nil_r.
  - destruct Hf as (_ & Hreads & Hf).
    rewrite run_stages_cons in Hrun.
    destruct (stage_result s (logged (stage_header s) st)) as [t|d];
      [|discriminate].
    rewrite (IH Hf _ _ Hrun), !requests_logged.
    unfold answered. change (requests (outside (with_results ?f ?x)))
      with (requests (outside x)).
    rewrite requests_interrupted, requests_logged, <- app_assoc.
    f_equal. simpl map. f_equal.
    destruct (run_stages_object l _ _ _ Hrun) as [Hm _].
    assert (Hp : stage_prompt s (results (self st'))
                 = stage_prompt s (before_request s (results (self st)))).
    { apply stage_prompt_ext. rewrite Forall_forall in *.
      intros k Hk. specialize (Hreads k Hk).
      inversion Hreads as [|? ? Hs Hl]; subst.
      rewrite (run_stages_frame l k Hl _ _ _ Hrun), !self_logged.
      rewrite get_answered, self_logged by exact Hs.
      symmetry. now apply get_before_request. }
    unfold stage_request. rewrite Hp, Hm.
    destruct s; reflexivity.
Qed.

(** A sequence that raises: the stages before the failing one completed,
    the failing stage logged its header and sent its request, and the
    exception is the failure of that request. *)
Lemma run_stages_raise (l : list stage) :
  forall st e st',
    run_stages l st = (Raise e, st') ->
    exists done s rest st2 d,
      l = done ++ s :: rest
      /\ run_stages done st = (Ok tt, st2)
      /\ stage_reply s (logged (stage_header s) st2) = Failure d
      /\ e = ServiceError d
      /\ st' = interrupted s (logged (stage_header s) st2).
Proof.
  induction l as [|s l IH]; intros st e st' Hrun; [discriminate|].
  rewrite run_stages_cons in Hrun.
  destruct (stage_result s (logged (stage_header s) st)) as [t|d] eqn:Hreply.
  - apply IH in Hrun as (done & s' & rest & st2 & d & -> & Hdone & Hfail & -> & ->).
    exists (s :: done), s', rest, st2, d. repeat split; try assumption.
    now rewrite run_stages_cons, Hreply.
  - inversion Hrun; subst. apply stage_result_failure in Hreply.
    exists [], s, l, st, d. now repeat split.
Qed.

(** ** [run_full_method] as a sequence of stages *)

Lemma run_full_method_pipeline (question : string) (generate_data : bool)
    (st : state) :
  run_full_method question generate_data st =
    match run_stages (pipeline question generate_data)
            (logged (question_line question) st) with
    | (Ok _, st') => (Ok (results (self st')), st')
    | (Raise e, st') => (Raise e, st')
    end.
Proof.
  destruct generate_data;
    cbv [run_full_method pipeline app run_stages logged_stage run_stage bind
         log_and_print modify ret gets question_line stage_header stage_rule];
    repeat match goal with
    | |- context [observe ?q ?s] =>
        destruct (observe q s) as [[?|?] ?]; [|reflexivity]
    | |- context [hypothesize ?s] =>
        destruct (hypothesize s) as [[?|?] ?]; [|reflexivity]
    | |- context [predict ?s] =>
        destruct (predict s) as [[?|?] ?]; [|reflexivity]
    | |- context [experiment ?s] =>
        destruct (experiment s) as [[?|?] ?]; [|reflexivity]
    | |- context [generate_experimental_data ?s] =>
        destruct (generate_experimental_data s) as [[?|?] ?]; [|reflexivity]
    | |- context [analyze ?s] =>
        destruct (analyze s) as [[?|?] ?]; [|reflexivity]
    | |- context [conclude ?s] =>
        destruct (conclude s) as [[?|?] ?]; [|reflexivity]
    end; reflexivity.
Qed.

Ltac solve_untouched :=
  repeat first
    [ apply Forall_nil_2
    | apply Forall_cons_2
    | split
    | cbv [writes stage_key]; rewrite ?elem_of_cons, ?elem_of_nil;
      solve [intuition discriminate] ].

Lemma pipeline_forward (question : string) (generate_data : bool) :
  forward (pipeline question generate_data).
Proof.
  destruct generate_data; cbn; unfold untouched_by; solve_untouched.
Qed.

(** After [observe], nothing assigns the question. *)
Lemma pipeline_question (question : string) (generate_data : bool) :
  untouched_by Kquestion (tl (pipeline question generate_data)).
Proof. destruct generate_data; cbn; unfold untouched_by; solve_untouched. Qed.

(** Without data generation, nothing assigns [experimental_data]. *)
Lemma pipeline_no_data (question : string) :
  untouched_by Kexperimental_data (pipeline question false).
Proof. cbn; unfold untouched_by; solve_untouched. Qed.

(** ** Transcript entries *)

Lemma header_is_stage_header (s : stage) :
  is_stage_header (Written (stage_header s +:+ nl)) = true.
Proof. destruct s; reflexivity. Qed.

Lemma rule_is_not_stage_header (s : stage) :
  is_stage_header (Written (stage_rule s +:+ nl)) = false.
Proof. destruct s; reflexivity. Qed.

(** A logged reply ends in two line breaks, a header in a full stop and one
    line break: whatever the service answers, its reply is not taken for a
    header. *)
Lemma reply_is_not_stage_header (t : string) :
  is_stage_header (Written ((nl +:+ t +:+ nl) +:+ nl)) = false.
Proof.
  unfold is_stage_header. apply not_true_is_false. intros H.
  apply existsb_exists in H as (h & _ & H). apply String.eqb_eq in H.
  assert (Hend : exists u, stage_header h = u +:+ String "."%char blank).
  { exists (but_last (stage_header h)). destruct h; reflexivity. }
  destruct Hend as (u & Hu). rewrite Hu in H.
  unfold nl at 3 in H. apply str_app_last_inj in H as [H _].
  rewrite <- str_app_assoc in H. unfold nl at 2 in H.
  apply str_app_last_inj in H as [_ H]. discriminate.
Qed.

Lemma question_line_is_not_stage_header (question : string) :
  is_stage_header (Written (question_line question +:+ nl)) = false.
Proof.
  unfold is_stage_header, question_line. apply not_true_is_false. intros H.
  apply existsb_exists in H as (h & _ & H). apply String.eqb_eq in H.
  destruct h; discriminate.
Qed.

Lemma stage_headers_app (l1 l2 : list chunk) :
  stage_headers (l1 ++ l2) = stage_headers l1 ++ stage_headers l2.
Proof. apply List.filter_app. Qed.

Lemma stage_headers_entries (r : Results) (l : list stage) :
  stage_headers (flat_map (stage_entries r) l)
  = map (fun s => Written (stage_header s +:+ nl)) l.
Proof.
  induction l as [|s l IH]; [reflexivity|].
  unfold stage_headers in *.
  cbn [flat_map stage_entries app List.filter map py_str].
  rewrite header_is_stage_header, rule_is_not_stage_header.
  destruct (get (stage_key s) r) as [t|]; cbn [py_str];
    rewrite reply_is_not_stage_header; now rewrite IH.
Qed.

(** * Claims about single methods *)

(** C1 (as amended): for every question, [observe] populates exactly the
    keys [question] and [observations].  It stores the question before its
    request: when the request is answered with [t] it returns [t], the
    record holds the question under [question] and [t] under
    [observations], and the six other keys keep their values; when the
    request fails it raises that failure, the record holds the question all
    the same, and every other key, [observations] included, keeps its
    value.  An answer without text is read as the empty text. *)
Theorem observe_populates (question : string) (st : state) :
  let c := ResponsesCreate (model (self st)) true
             (render (results (self st)) (observe_prompt question)) in
  (forall t,
      service (requests (outside st)) c = Text t ->
      exists st',
        observe question st = (Ok (Some t), st')
        /\ get Kquestion (results (self st')) = Some question
        /\ get Kobservations (results (self st')) = Some t
        /\ forall k, k <> Kquestion -> k <> Kobservations ->
             get k (results (self st')) = get k (results (self st)))
  /\ (forall d,
        service (requests (outside st)) c = Failure d ->
        exists st',
          observe question st = (Raise (ServiceError d), st')
          /\ get Kquestion (results (self st')) = Some question
          /\ forall k, k <> Kquestion ->
               get k (results (self st')) = get k (results (self st)))
  /\ (service (requests (outside st)) c = Null ->
      exists st',
        observe question st = (Ok (Some blank), st')
        /\ get Kquestion (results (self st')) = Some question
        /\ get Kobservations (results (self st')) = Some blank
        /\ forall k, k <> Kquestion -> k <> Kobservations ->
             get k (results (self st')) = get k (results (self st))).
Proof.
  intros c. change (observe question) with (run_stage (Observe question)).
  rewrite run_stage_spec. unfold stage_result.
  change (stage_reply (Observe question) st)
    with (service (requests (outside st)) c).
  assert (Hframe : forall v k, k <> Kquestion -> k <> Kobservations ->
            get k (results (self (answered (Observe question) v st)))
            = get k (results (self st))).
  { intros v k Hq Ho. apply (get_answered (Observe question)). simpl.
    rewrite !elem_of_cons, elem_of_nil. intros [H|[H|[]]]; contradiction. }
  split; [|split].
  - intros t ->. eexists. split; [reflexivity|]. split; [reflexivity|].
    split; [apply (get_answered_key (Observe question))|apply Hframe].
  - intros d ->. eexists. split; [reflexivity|]. split; [reflexivity|].
    intros k Hk. rewrite results_interrupted.
    now apply get_before_request_other.
  - intros ->. eexists. split; [reflexivity|]. split; [reflexivity|].
    split; [apply (get_answered_key (Observe question))|apply Hframe].
Qed.

(** C3: whatever the record holds, the prompt [analyze] sends consists of
    the same text before and after the data context; without
    [experimental_data] the data context is the fixed note, and with it the
    stored text occurs verbatim in the prompt (after the label
    "Experimental Results:" when the text is not empty). *)
Theorem analyze_prompt_data (st : state) :
  let r := results (self st) in
  exists prompt,
    requests (outside (snd (analyze st)))
    = requests (outside st) ++ [ChatCompletionsCreate (model (self st)) prompt]
    /\ (get Kexperimental_data r = None ->
        prompt = render r analyze_prefix +:+ no_data_note
                 +:+ render r analyze_suffix)
    /\ (forall d, get Kexperimental_data r = Some d ->
        occurs_in d prompt
        /\ (d <> blank ->
            prompt = render r analyze_prefix
                     +:+ (nl +:+ "Experimental Results:" +:+ nl +:+ d)
                     +:+ render r analyze_suffix)).
Proof.
  intros r. exists (render r (analyze_prompt r)). split.
  { change analyze with (run_stage Analyze). rewrite run_stage_requests.
    reflexivity. }
  assert (Hshape : render r (analyze_prompt r)
                   = render r analyze_prefix +:+ data_context r
                     +:+ render r analyze_suffix).
  { unfold analyze_prompt. rewrite !render_app. unfold render at 2.
    simpl map. unfold String.concat. reflexivity. }
  rewrite Hshape. unfold data_context. split.
  - intros ->. reflexivity.
  - intros d ->. split.
    + apply occurs_in_app_l, occurs_in_app_r.
      simpl truthy. destruct (String.eqb d blank) eqn:Hd.
      * apply String.eqb_eq in Hd as ->. apply occurs_in_blank.
      * simpl. do 3 apply occurs_in_app_l. apply occurs_in_refl.
    + intros Hd. apply String.eqb_neq in Hd. simpl truthy. now rewrite Hd.
Qed.



(** * The command line *)

Lemma dotenv_loaded_twice (w : world) :
  dotenv_loaded (dotenv_loaded w) = dotenv_loaded w.
Proof.
  unfold dotenv_loaded. simpl. f_equal.
  apply map_eq. intros k. rewrite !lookup_union.
  destruct (environ w !! k), (dotenv !! k); reflexivity.
Qed.

Lemma save_results_spec (filename : string) (st : state) :
  save_results filename st = (Ok tt, saved filename st).
Proof. reflexivity. Qed.

Lemma credential_loaded (w : world) :
  credential (dotenv_loaded w) = credential w.
Proof.
  unfold credential.
  change (environ (dotenv_loaded w) ∪ dotenv)
    with (environ (dotenv_loaded (dotenv_loaded w))).
  now rewrite dotenv_loaded_twice.
Qed.

Lemma constructed_loaded (w : world) :
  constructed (dotenv_loaded w) = constructed w.
Proof. unfold constructed. now rewrite dotenv_loaded_twice. Qed.

(** [ScientificMethod()], outcome by outcome. *)
Lemma ScientificMethod_init_spec (w : world) :
  ScientificMethod_init None None w =
    match OpenAI_rejects (credential w) with
    | Some detail => (Raise (ClientError detail), dotenv_loaded w)
    | None => (Ok (self (constructed w)), outside (constructed w))
    end.
Proof.
  unfold ScientificMethod_init, bind, load_dotenv, modify, getenv, gets,
    raise, ret.
  change (environ (mkWorld (environ w ∪ dotenv) (files w) (console w)
                     (requests w)) !! "OPENAI_API_KEY")
    with (credential w).
  destruct (OpenAI_rejects (credential w)); reflexivity.
Qed.

(** [main], outcome by outcome. *)
Lemma script_spec (args : Namespace) (w : world) :
  script args w =
    let q := resolve_question args (env_question_of (environ w)) in
    if negb (truthy q)
    then (Raise (SystemExit 2 usage_message), dotenv_loaded w)
    else
      match OpenAI_rejects (credential w) with
      | Some detail => (Raise (ClientError detail), dotenv_loaded w)
      | None =>
          match run_full_method (py_str q) (args_generate_data args)
                  (constructed w) with
          | (Ok _, st) => (Ok tt, outside (saved results_file st))
          | (Raise e, st) => (Raise e, outside st)
          end
      end.
Proof.
  cbv zeta. unfold script, main, bind at 1, load_dotenv at 1, modify at 1.
  fold (dotenv_loaded w). unfold bind at 1.
  destruct (truthy (resolve_question args (env_question_of (environ w))));
    [|reflexivity].
  change (negb true) with false. unfold ret at 1. cbv beta iota.
  unfold bind at 1.
  rewrite ScientificMethod_init_spec, credential_loaded, constructed_loaded,
    dotenv_loaded_twice.
  destruct (OpenAI_rejects (credential w)) as [detail|]; [reflexivity|].
  unfold bind at 1, call_on at 1.
  change (mkState (self (constructed w)) (outside (constructed w)))
    with (constructed w).
  destruct (run_full_method _ _ (constructed w)) as [[r|e] st];
    [|reflexivity].
  unfold bind, call_on, snd. rewrite save_results_spec. reflexivity.
Qed.

(** The only exceptions of a run are the failures of its requests. *)
Lemma run_full_method_raises (question : string) (generate_data : bool)
    (st : state) (e : exn) (st' : state) :
  run_full_method question generate_data st = (Raise e, st') ->
  exists d, e = ServiceError d.
Proof.
  rewrite run_full_method_pipeline.
  destruct (run_stages _ _) as [[[]|e'] st2] eqn:Hrun; [discriminate|].
  intros H. inversion H; subst.
  apply run_stages_raise in Hrun as (_ & _ & _ & _ & d & _ & _ & _ & -> & _).
  now exists d.
Qed.

Lemma resolve_question_chain (args : Namespace) (eq : string) :
  resolve_question args eq =
    if truthy (args_question_flag args) then args_question_flag args
    else if truthy (args_question args) then args_question args
    else Some eq.
Proof. reflexivity. Qed.

(** No question: usage error, and nothing but [load_dotenv] has happened. *)
Lemma script_usage_error (args : Namespace) (w : world) :
  truthy (resolve_question args (env_question_of (environ w))) = false ->
  script args w = (Raise (SystemExit 2 usage_message), dotenv_loaded w).
Proof. intros H. rewrite script_spec. cbv zeta. now rewrite H. Qed.

(** A question: whatever happens next, it is not a usage error. *)
Lemma script_no_usage_error (args : Namespace) (w : world) :
  truthy (resolve_question args (env_question_of (environ w))) = true ->
  forall n m, fst (script args w) <> Raise (SystemExit n m).
Proof.
  intros H n m. rewrite script_spec. cbv zeta. rewrite H.
  change (negb true) with false. cbv beta iota. destruct (OpenAI_rejects (credential w)); [discriminate|].
  destruct (run_full_method _ _ _) as [[r|e] st] eqn:Hrun; [discriminate|].
  apply run_full_method_raises in Hrun as [d ->]. discriminate.
Qed.

(** The fallback question is empty only when the variable is set to the
    empty text. *)
Lemma env_question_empty (env : gmap string string) :
  env_question_of env = blank ->
  env !! "SCIENTIFIC_METHOD_QUESTION" = Some blank.
Proof.
  unfold env_question_of.
  destruct (env !! "SCIENTIFIC_METHOD_QUESTION") as [v|]; simpl.
  - now intros ->.
  - discriminate.
Qed.

Lemma truthy_false (v : option string) :
  truthy v = false <-> v = None \/ v = Some blank.
Proof.
  destruct v as [s|]; simpl.
  - rewrite negb_false_iff, String.eqb_eq. split.
    + intros ->. now right.
    + intros [H|H]; [discriminate|now inversion H].
  - split; [now left|reflexivity].
Qed.

(** C2 (as amended): the question is the first non-empty value among the
    flag, the positional argument and [env_question], which is the value of
    the environment variable or, when the variable is unset, the built-in
    default.  When there is such a value the program never ends in a usage
    error; when there is none, which requires the variable to be set to the
    empty text, it ends in the usage error with no request sent and no file
    written. *)
Theorem question_priority (args : Namespace) (w : world) :
  let eq := env_question_of (environ w) in
  match List.find truthy
          [args_question_flag args; args_question args; Some eq] with
  | Some v =>
      resolve_question args eq = v
      /\ truthy v = true
      /\ forall n m, fst (script args w) <> Raise (SystemExit n m)
  | None =>
      script args w = (Raise (SystemExit 2 usage_message), dotenv_loaded w)
      /\ requests (dotenv_loaded w) = requests w
      /\ files (dotenv_loaded w) = files w
      /\ environ w !! "SCIENTIFIC_METHOD_QUESTION" = Some blank
  end.
Proof.
  intros eq. cbn [List.find].
  assert (Hchain := resolve_question_chain args eq).
  destruct (truthy (args_question_flag args)) eqn:Hf.
  { split; [exact Hchain|]. split; [exact Hf|].
    apply script_no_usage_error. fold eq. now rewrite Hchain. }
  destruct (truthy (args_question args)) eqn:Hp.
  { split; [exact Hchain|]. split; [exact Hp|].
    apply script_no_usage_error. fold eq. now rewrite Hchain. }
  destruct (truthy (Some eq)) eqn:He.
  { split; [exact Hchain|]. split; [exact He|].
    apply script_no_usage_error. fold eq. now rewrite Hchain. }
  split; [|split; [reflexivity|split; [reflexivity|]]].
  - apply script_usage_error. fold eq. now rewrite Hchain.
  - apply env_question_empty. fold eq.
    apply truthy_false in He as [He|He]; [discriminate|now inversion He].
Qed.

(** C10: an empty flag or positional argument resolves like an absent one,
    so resolution falls through to the next source; the fallback is the
    environment variable or else the built-in, non-empty default; the
    program ends in the usage error exactly when the flag and the
    positional argument are absent or empty and the fallback is empty; and
    the resolved question is the first non-empty value of the chain flag,
    positional argument, fallback (the empty fallback when there is
    none). *)
Theorem empty_question_is_absent (args : Namespace) (w : world) :
  let eq := env_question_of (environ w) in
  (forall positional gd,
      resolve_question (mkNamespace positional (Some blank) gd) eq
      = resolve_question (mkNamespace positional None gd) eq)
  /\ (forall flag gd,
      resolve_question (mkNamespace (Some blank) flag gd) eq
      = resolve_question (mkNamespace None flag gd) eq)
  /\ resolve_question args eq
     = resolve_question
         (mkNamespace (nonempty (args_question args))
                      (nonempty (args_question_flag args))
                      (args_generate_data args)) eq
  /\ eq = default "Does rapamycin increase lifespan?"
            (environ w !! "SCIENTIFIC_METHOD_QUESTION")
  /\ ((exists n m, fst (script args w) = Raise (SystemExit n m))
      <-> truthy (args_question_flag args) = false
          /\ truthy (args_question args) = false
          /\ eq = blank)
  /\ match List.find truthy
             [args_question_flag args; args_question args; Some eq] with
     | Some v => resolve_question args eq = v
     | None => resolve_question args eq = Some blank
     end
  /\ nonempty (resolve_question args eq)
     = first_nonempty
         [args_question_flag args; args_question args; Some eq].
Proof.
  intros eq.
  assert (Hfirst :
    match List.find truthy
            [args_question_flag args; args_question args; Some eq] with
    | Some v => resolve_question args eq = v
    | None => resolve_question args eq = Some blank
    end
    /\ nonempty (resolve_question args eq)
       = first_nonempty
           [args_question_flag args; args_question args; Some eq]).
  { unfold first_nonempty, nonempty. rewrite resolve_question_chain.
    cbn [List.find].
    destruct (truthy (args_question_flag args)) eqn:Hf;
      [rewrite Hf; now split|].
    destruct (truthy (args_question args)) eqn:Hp;
      [rewrite Hp; now split|].
    destruct (truthy (Some eq)) eqn:He; [now split|].
    split; [|reflexivity].
    apply truthy_false in He as [He|He]; [discriminate|exact He]. }
  cut ((forall positional gd,
      resolve_question (mkNamespace positional (Some blank) gd) eq
      = resolve_question (mkNamespace positional None gd) eq)
  /\ (forall flag gd,
      resolve_question (mkNamespace (Some blank) flag gd) eq
      = resolve_question (mkNamespace None flag gd) eq)
  /\ resolve_question args eq
     = resolve_question
         (mkNamespace (nonempty (args_question args))
                      (nonempty (args_question_flag args))
                      (args_generate_data args)) eq
  /\ eq = default "Does rapamycin increase lifespan?"
            (environ w !! "SCIENTIFIC_METHOD_QUESTION")
  /\ ((exists n m, fst (script args w) = Raise (SystemExit n m))
      <-> truthy (args_question_flag args) = false
          /\ truthy (args_question args) = false
          /\ eq = blank)).
  { intros (H1 & H2 & H3 & H4 & H5). destruct Hfirst as [H6 H7].
    repeat (split; [assumption|]). assumption. }
  clear Hfirst.
  split; [reflexivity|]. split; [intros [v|] gd; reflexivity|].
  split.
  { rewrite !resolve_question_chain. simpl. unfold nonempty.
    destruct (truthy (args_question_flag args)) eqn:Hf; rewrite ?Hf;
      [reflexivity|].
    simpl. destruct (truthy (args_question args)) eqn:Hp; rewrite ?Hp;
      reflexivity. }
  split; [reflexivity|]. split.
  - intros (n & m & Hexit).
    destruct (truthy (resolve_question args eq)) eqn:Hq.
    + exfalso. exact (script_no_usage_error args w Hq n m Hexit).
    + rewrite resolve_question_chain in Hq.
      destruct (truthy (args_question_flag args)) eqn:Hf; [congruence|].
      destruct (truthy (args_question args)) eqn:Hp; [congruence|].
      split; [reflexivity|]. split; [reflexivity|].
      apply truthy_false in Hq as [Hq|Hq]; [discriminate|now inversion Hq].
  - intros (Hf & Hp & He). exists 2, usage_message.
    rewrite script_usage_error; [reflexivity|].
    rewrite resolve_question_chain, Hf, Hp. fold eq. now rewrite He.
Qed.

(** C7 (as amended): [main] has no check of the credential.  When the
    question resolves and no credential is found, [None] is handed to the
    client constructor; if the constructor raises, its exception leaves
    [main] uncaught, with no request sent and no file written, and in no
    case does the program end in a usage error. *)
Theorem missing_credential (args : Namespace) (w : world) :
  truthy (resolve_question args (env_question_of (environ w))) = true ->
  credential w = None ->
  (forall detail,
      OpenAI_rejects None = Some detail ->
      script args w = (Raise (ClientError detail), dotenv_loaded w)
      /\ requests (dotenv_loaded w) = requests w
      /\ files (dotenv_loaded w) = files w)
  /\ forall n m, fst (script args w) <> Raise (SystemExit n m).
Proof.
  intros Hq Hkey. split.
  - intros detail Hrej. repeat split.
    rewrite script_spec. cbv zeta. rewrite Hq, Hkey, Hrej. reflexivity.
  - now apply script_no_usage_error.
Qed.

(** * Whole runs *)

Lemma run_full_method_ok (question : string) (generate_data : bool)
    (st : state) (r : Results) (st' : state) :
  run_full_method question generate_data st = (Ok r, st') ->
  run_stages (pipeline question generate_data)
    (logged (question_line question) st) = (Ok tt, st')
  /\ r = results (self st').
Proof.
  rewrite run_full_method_pipeline.
  destruct (run_stages _ _) as [[[]|e] st2]; [|discriminate].
  intros H. inversion H; subst. now split.
Qed.

(** Once [observe] has been answered, the record holds the question. *)
Lemma run_stages_question (question : string) (l : list stage) :
  untouched_by Kquestion l ->
  forall st st',
    run_stages (Observe question :: l) st = (Ok tt, st') ->
    get Kquestion (results (self st')) = Some question.
Proof.
  intros Hl st st' Hrun. rewrite run_stages_cons in Hrun.
  destruct (stage_result _ _) as [t|d]; [|discriminate].
  rewrite (run_stages_frame l _ Hl _ _ _ Hrun). reflexivity.
Qed.

Lemma in_pipeline_order_intro (generate_data : bool) (r : Results) :
  (forall k, k <> Kexperimental_data -> populated k r = true) ->
  (generate_data = true -> populated Kexperimental_data r = true) ->
  in_pipeline_order generate_data r.
Proof.
  intros Hk Hd i j ki kj _ _ _ _.
  destruct (decide (ki = Kexperimental_data)) as [->|Hne].
  - destruct generate_data; [left; now apply Hd | right; now split].
  - left. now apply Hk.
Qed.

Lemma elem_of_pipeline_keys (question : string) (generate_data : bool)
    (k : key) :
  k <> Kquestion ->
  (k = Kexperimental_data -> generate_data = true) ->
  exists s, s ∈ pipeline question generate_data /\ stage_key s = k.
Proof.
  intros Hq Hd.
  assert (Hin : forall s, s <> GenerateData ->
            s ∈ [Observe question; Hypothesize; Predict; Experiment;
                 Analyze; Conclude] ->
            s ∈ pipeline question generate_data).
  { intros s Hs. unfold pipeline.
    destruct generate_data; simpl; rewrite !elem_of_cons; intuition. }
  destruct k; try contradiction.
  - exists (Observe question). split; [|reflexivity].
    apply Hin; [discriminate|]. rewrite !elem_of_cons. intuition.
  - exists Hypothesize. split; [|reflexivity].
    apply Hin; [discriminate|]. rewrite !elem_of_cons. intuition.
  - exists Predict. split; [|reflexivity].
    apply Hin; [discriminate|]. rewrite !elem_of_cons. intuition.
  - exists Experiment. split; [|reflexivity].
    apply Hin; [discriminate|]. rewrite !elem_of_cons. intuition.
  - exists GenerateData. split; [|reflexivity].
    rewrite (Hd eq_refl). unfold pipeline. simpl.
    rewrite !elem_of_cons. intuition.
  - exists Analyze. split; [|reflexivity].
    apply Hin; [discriminate|]. rewrite !elem_of_cons. intuition.
  - exists Conclude. split; [|reflexivity].
    apply Hin; [discriminate|]. rewrite !elem_of_cons. intuition.
Qed.

(** What every completed run leaves. *)
Lemma completed_run_facts (question : string) (generate_data : bool)
    (st : state) (r : Results) (st' : state) :
  run_full_method question generate_data st = (Ok r, st') ->
  r = results (self st')
  /\ run_stages (pipeline question generate_data)
       (logged (question_line question) st) = (Ok tt, st')
  /\ get Kquestion r = Some question
  /\ (always_text ->
      forall k, (k = Kexperimental_data -> generate_data = true) ->
        populated k r = true).
Proof.
  intros Hrun. apply run_full_method_ok in Hrun as [Hrun ->].
  assert (Hq : get Kquestion (results (self st')) = Some question).
  { eapply run_stages_question; [|exact Hrun].
    apply (pipeline_question question generate_data). }
  split; [reflexivity|]. split; [exact Hrun|]. split; [exact Hq|].
  intros Htext.
  pose proof (run_stages_populates _ Htext _ _ Hrun) as Hpop.
  rewrite Forall_forall in Hpop.
  intros k Hk. destruct (decide (k = Kquestion)) as [->|Hne].
  - unfold populated. now rewrite Hq.
  - destruct (elem_of_pipeline_keys question generate_data k Hne Hk)
      as (s & Hs & <-).
    now apply Hpop.
Qed.

Lemma total_text_always_text :
  (forall h c, exists t, service h c = Text t) -> always_text.
Proof. intros H h c E. destruct (H h c) as [t Ht]. congruence. Qed.

(** [observe] reads a text from any answer. *)
Lemma observe_result_text (question : string) (st : state)
    (v : option string) :
  stage_result (Observe question) st = inl v -> exists t, v = Some t.
Proof.
  unfold stage_result.
  destruct (stage_reply (Observe question) st) as [t| |d]; intros H;
    inversion H; eauto.
Qed.

(** Once [observe] has been answered, the record holds observations. *)
Lemma run_stages_observations (question : string) (l : list stage) :
  untouched_by Kobservations l ->
  forall st st',
    run_stages (Observe question :: l) st = (Ok tt, st') ->
    populated Kobservations (results (self st')) = true.
Proof.
  intros Hl st st' Hrun. rewrite run_stages_cons in Hrun.
  destruct (stage_result _ _) as [v|d] eqn:E; [|discriminate].
  apply observe_result_text in E as [t ->].
  unfold populated.
  rewrite (run_stages_frame l _ Hl _ _ _ Hrun). reflexivity.
Qed.

Lemma pipeline_observations (question : string) (generate_data : bool) :
  untouched_by Kobservations (tl (pipeline question generate_data)).
Proof. destruct generate_data; cbn; unfold untouched_by; solve_untouched. Qed.

(** C4 (as amended): when [run_full_method] returns, the record it returns
    is the record of the object, and [question], with the question of the
    run, and [observations] are populated.  Against a service that never
    answers without a text its keys are populated in pipeline order, with
    [experimental_data] exempt when data generation is off: the seven other
    keys are populated, and [experimental_data] too when data generation is
    on. *)
Theorem completed_run_in_order (question : string) (generate_data : bool)
    (st : state) (r : Results) (st' : state) :
  run_full_method question generate_data st = (Ok r, st') ->
  r = results (self st')
  /\ get Kquestion r = Some question
  /\ populated Kobservations r = true
  /\ (always_text ->
      in_pipeline_order generate_data r
      /\ (forall k, k <> Kexperimental_data -> populated k r = true)
      /\ (generate_data = true -> populated Kexperimental_data r = true)).
Proof.
  intros Hrun.
  apply completed_run_facts in Hrun as (Hr & Hstages & Hq & Hall).
  split; [exact Hr|]. split; [exact Hq|]. split.
  - rewrite Hr. eapply run_stages_observations; [|exact Hstages].
    apply (pipeline_observations question generate_data).
  - intros Htext. specialize (Hall Htext). split; [|split].
    + apply in_pipeline_order_intro.
      * intros k Hk. apply Hall. intros ->. contradiction.
      * intros Hg. apply Hall. now intros _.
    + intros k Hk. apply Hall. intros ->. contradiction.
    + intros Hg. apply Hall. now intros _.
Qed.





(** A service that always answers lets every sequence of stages complete. *)
Lemma run_stages_completes (l : list stage) :
  (forall h c, exists t, service h c = Text t) ->
  forall st, exists st', run_stages l st = (Ok tt, st').
Proof.
  intros Hservice. induction l as [|s l IH]; intros st.
  - now exists st.
  - rewrite run_stages_cons.
    destruct (Hservice (requests (outside (logged (stage_header s) st)))
                (stage_request s
                   (self (with_results (before_request s)
                            (logged (stage_header s) st)))))
      as [t Ht].
    rewrite (stage_result_text s _ t Ht). apply IH.
Qed.

Lemma run_full_method_completes (question : string) (generate_data : bool)
    (st : state) :
  (forall h c, exists t, service h c = Text t) ->
  exists r st', run_full_method question generate_data st = (Ok r, st').
Proof.
  intros Hservice. rewrite run_full_method_pipeline.
  destruct (run_stages_completes (pipeline question generate_data) Hservice
              (logged (question_line question) st)) as [st' ->].
  now exists (results (self st')), st'.
Qed.

(** The log file [main] works with is not the file it saves the results
    to: one name ends in g, the other in n. *)
Lemma default_log_file_not_results_file : default_log_file <> results_file.
Proof.
  unfold default_log_file, results_file. intros H.
  change "scientific_method_results.json"
    with ("scientific_method_" +:+ "results.json") in H.
  apply (inj (String.app "scientific_method_")) in H.
  change ".log" with (".lo" +:+ String "g"%char blank) in H.
  change "results.json" with ("results.jso" +:+ String "n"%char blank) in H.
  rewrite <- str_app_assoc in H.
  apply str_app_last_inj in H as [_ H]. discriminate.
Qed.

Lemma transcript_saved (filename : string) (st : state) :
  log_file (self st) <> filename ->
  transcript (saved filename st)
  = transcript st
    ++ [Written ((nl +:+ "Results saved to " +:+ filename) +:+ nl)].
Proof.
  intros Hne. unfold saved. rewrite transcript_logged. f_equal.
  unfold transcript, with_world, on_files, write_file. simpl.
  now rewrite lookup_insert_ne.
Qed.

Lemma files_saved (filename : string) (st : state) :
  log_file (self st) <> filename ->
  files (outside (saved filename st)) !! filename
  = Some [Dumped (to_json (results (self st))) 2].
Proof.
  intros Hne. unfold saved, logged, with_world, on_files, append_file,
    write_file. simpl.
  rewrite lookup_insert_ne by exact Hne. apply lookup_insert_eq.
Qed.

Lemma requests_saved (filename : string) (st : state) :
  requests (outside (saved filename st)) = requests (outside st).
Proof. reflexivity. Qed.

Lemma transcript_constructed (w : world) :
  transcript (constructed w) = [first_log].
Proof.
  unfold transcript, constructed, on_files, write_file. simpl.
  now rewrite lookup_insert_eq.
Qed.

(** The dumped document of a record with everything but
    [experimental_data]. *)
Lemma to_json_no_data (r : Results) :
  get Kexperimental_data r = None ->
  (forall k, k <> Kexperimental_data -> populated k r = true) ->
  null_members (to_json r) = ["experimental_data"]
  /\ non_null_members (to_json r)
     = ["question"; "observations"; "hypothesis"; "predictions";
        "experiments"; "analysis"; "conclusion"].
Proof.
  intros Hd Hk.
  pose proof (Hk Kquestion) as H1. pose proof (Hk Kobservations) as H2.
  pose proof (Hk Khypothesis) as H3. pose proof (Hk Kpredictions) as H4.
  pose proof (Hk Kexperiments) as H5. pose proof (Hk Kanalysis) as H6.
  pose proof (Hk Kconclusion) as H7.
  destruct r as [q o h p e d a c]. unfold populated in *. simpl in *.
  subst d.
  destruct q; [|now specialize (H1 ltac:(discriminate))].
  destruct o; [|now specialize (H2 ltac:(discriminate))].
  destruct h; [|now specialize (H3 ltac:(discriminate))].
  destruct p; [|now specialize (H4 ltac:(discriminate))].
  destruct e; [|now specialize (H5 ltac:(discriminate))].
  destruct a; [|now specialize (H6 ltac:(discriminate))].
  destruct c; [|now specialize (H7 ltac:(discriminate))].
  split; reflexivity.
Qed.

(** C5: with [--no-data], a question, an accepted credential and a service
    that answers, [main] completes.  The record of the run has
    [experimental_data] absent and the seven other keys populated;
    [analyze] was sent the prompt with the no-data note; six requests were
    sent, one per stage of the pipeline without data generation; the
    transcript holds the six headers of these stages and not the header of
    step 4b; and the results file holds one dumped document with seven
    members that are not null and one, [experimental_data], that is null. *)
Theorem no_data_run (args : Namespace) (w : world) :
  let q := py_str (resolve_question args (env_question_of (environ w))) in
  args_generate_data args = false ->
  truthy (resolve_question args (env_question_of (environ w))) = true ->
  OpenAI_rejects (credential w) = None ->
  (forall h c, exists t, service h c = Text t) ->
  exists r st,
    run_full_method q false (constructed w) = (Ok r, st)
    /\ script args w = (Ok tt, outside (saved results_file st))
    /\ r = results (self st)
    /\ get Kexperimental_data r = None
    /\ (forall k, k <> Kexperimental_data -> populated k r = true)
    /\ data_context r = no_data_note
    /\ requests (outside (saved results_file st))
       = requests w
         ++ map (fun s => stage_request s (self st)) (pipeline q false)
    /\ stage_request Analyze (self st)
       = ChatCompletionsCreate "gpt-5"
           (render r analyze_prefix +:+ no_data_note
            +:+ render r analyze_suffix)
    /\ stage_headers (transcript (saved results_file st))
       = map (fun s => Written (stage_header s +:+ nl)) (pipeline q false)
    /\ length (stage_headers (transcript (saved results_file st))) = 6
    /\ ~ (Written (stage_header GenerateData +:+ nl)
           ∈ transcript (saved results_file st))
    /\ files (outside (saved results_file st)) !! results_file
       = Some [Dumped (to_json r) 2]
    /\ null_members (to_json r) = ["experimental_data"]
    /\ length (non_null_members (to_json r)) = 7.
Proof.
  intros q Hgd Hq Hkey Hservice.
  destruct (run_full_method_completes q false (constructed w) Hservice)
    as (r & st & Hrun).
  exists r, st. split; [exact Hrun|].
  split.
  { rewrite script_spec. cbv zeta. rewrite Hq, Hkey, Hgd.
    change (negb true) with false. cbv beta iota. fold q. now rewrite Hrun. }
  destruct (completed_run_facts q false (constructed w) r st Hrun)
    as (Hr & Hstages & Hquestion & Hall).
  specialize (Hall (total_text_always_text Hservice)).
  assert (Hpop : forall k, k <> Kexperimental_data -> populated k r = true).
  { intros k Hk. apply Hall. intros ->. contradiction. }
  split; [exact Hr|].
  assert (Hdata : get Kexperimental_data r = None).
  { rewrite Hr.
    rewrite (run_stages_frame _ _ (pipeline_no_data q) _ _ _ Hstages).
    reflexivity. }
  assert (Hobj := run_stages_object _ _ _ _ Hstages).
  destruct Hobj as [Hmodel Hlog]. rewrite self_logged in Hmodel, Hlog.
  assert (Hlogfile : log_file (self st) <> results_file).
  { rewrite Hlog. apply default_log_file_not_results_file. }
  assert (Hnote : data_context r = no_data_note).
  { unfold data_context. now rewrite Hdata. }
  assert (Htranscript :
    stage_headers (transcript (saved results_file st))
    = map (fun s => Written (stage_header s +:+ nl)) (pipeline q false)).
  { rewrite (transcript_saved _ _ Hlogfile).
    rewrite (run_stages_transcript _ (pipeline_forward q false) _ _ Hstages).
    rewrite transcript_logged, transcript_constructed.
    rewrite !stage_headers_app, stage_headers_entries.
    unfold stage_headers at 1 2 3. cbn [List.filter].
    rewrite question_line_is_not_stage_header.
    change (is_stage_header first_log) with false.
    change (is_stage_header
              (Written ((nl +:+ "Results saved to " +:+ results_file) +:+ nl)))
      with false.
    cbn [app]. now rewrite app_nil_r. }
  split; [exact Hdata|]. split; [exact Hpop|]. split; [exact Hnote|].
  split.
  { rewrite requests_saved.
    rewrite (run_stages_requests _ (pipeline_forward q false) _ _ Hstages).
    reflexivity. }
  split.
  { unfold stage_request, stage_prompt, analyze_prompt.
    rewrite Hmodel, <- Hr, !render_app, Hnote. reflexivity. }
  split; [exact Htranscript|].
  split; [now rewrite Htranscript|].
  split.
  { intros Hin.
    assert (Hh : Written (stage_header GenerateData +:+ nl)
                   ∈ stage_headers (transcript (saved results_file st))).
    { unfold stage_headers. apply list_elem_of_In, List.filter_In.
      split; [now apply list_elem_of_In|reflexivity]. }
    rewrite Htranscript in Hh. unfold pipeline in Hh. simpl in Hh.
    rewrite !elem_of_cons, elem_of_nil in Hh.
    intuition discriminate. }
  split; [rewrite Hr; now apply files_saved|].
  destruct (to_json_no_data r Hdata Hpop) as [Hnull Hnon].
  split; [exact Hnull|]. now rewrite Hnon.
Qed.

(** * Further properties of the stages *)

(** A rendered template contains the text of every field it interpolates. *)
Lemma render_contains_field (t : list piece) (r : Results) (k : key) :
  k ∈ fields_of t -> occurs_in (py_str (get k r)) (render r t).
Proof.
  induction t as [|p t IH]; intros Hk.
  - simpl in Hk. now apply elem_of_nil in Hk.
  - change (p :: t) with ([p] ++ t). rewrite render_app.
    destruct p as [s|k']; simpl in Hk.
    + apply occurs_in_app_l. now apply IH.
    + apply elem_of_cons in Hk as [->|Hk].
      * apply occurs_in_app_r. unfold render. simpl.
        apply occurs_in_refl.
      * apply occurs_in_app_l. now apply IH.
Qed.

(** The request of any stage other than [observe] leaves the record as it
    is until the reply arrives. *)
Lemma before_request_reads (s : stage) (r : Results) (k : key) :
  k ∈ reads s -> get k (before_request s r) = get k r.
Proof.
  destruct s; try reflexivity. simpl. intros H. now apply elem_of_nil in H.
Qed.

(** X1: every stored text a stage reads occurs verbatim in the prompt of the
    one request the stage sends. *)
Theorem stage_prompt_threads_results (s : stage) (st : state) (k : key)
    (v : string) :
  k ∈ reads s ->
  get k (results (self st)) = Some v ->
  exists c,
    requests (outside (snd (run_stage s st))) = requests (outside st) ++ [c]
    /\ occurs_in v (prompt_of c).
Proof.
  intros Hk Hv. eexists. split; [apply run_stage_requests|].
  rewrite prompt_of_stage_request.
  change (results (self (with_results (before_request s) st)))
    with (before_request s (results (self st))).
  assert (Hv' : get k (before_request s (results (self st))) = Some v)
    by now rewrite before_request_reads.
  set (r := before_request s (results (self st))) in *.
  destruct s; simpl in Hk;
    try (change v with (py_str (Some v)); rewrite <- Hv';
         now apply render_contains_field).
  unfold stage_prompt, analyze_prompt. rewrite !render_app.
  apply elem_of_cons in Hk as [->|Hk].
  - apply occurs_in_app_l, occurs_in_app_r.
    unfold render. simpl.
    unfold data_context. rewrite Hv'. simpl truthy.
    destruct (String.eqb v blank) eqn:E.
    + apply String.eqb_eq in E as ->. apply occurs_in_blank.
    + simpl. do 3 apply occurs_in_app_l. apply occurs_in_refl.
  - apply occurs_in_app_r.
    change v with (py_str (Some v)). rewrite <- Hv'.
    apply render_contains_field. simpl. exact Hk.
Qed.

(** X2: a stage run before its inputs exist does not raise on that account: a
    key that holds [None] is rendered as the word None in the prompt (the
    data of [analyze] apart, which is replaced by the no-data note). *)
Theorem stage_renders_missing_as_none (s : stage) (st : state) (k : key) :
  k ∈ reads s ->
  (s, k) <> (Analyze, Kexperimental_data) ->
  get k (results (self st)) = None ->
  exists c,
    requests (outside (snd (run_stage s st))) = requests (outside st) ++ [c]
    /\ occurs_in "None" (prompt_of c)
    /\ match stage_reply s st with
       | Text t => fst (run_stage s st) = Ok (Some t)
       | Null => fst (run_stage s st) = Ok (content_of s Null)
       | Failure d => fst (run_stage s st) = Raise (ServiceError d)
       end.
Proof.
  intros Hk Hne Hv. eexists. split; [apply run_stage_requests|]. split.
  - rewrite prompt_of_stage_request.
    change (results (self (with_results (before_request s) st)))
      with (before_request s (results (self st))).
    assert (Hv' : get k (before_request s (results (self st))) = None)
      by now rewrite before_request_reads.
    set (r := before_request s (results (self st))) in *.
    destruct s; simpl in Hk;
      try (change "None" with (py_str None); rewrite <- Hv';
           now apply render_contains_field).
    unfold stage_prompt, analyze_prompt. rewrite !render_app.
    apply elem_of_cons in Hk as [->|Hk]; [contradiction|].
    apply occurs_in_app_r.
    change "None" with (py_str None). rewrite <- Hv'.
    apply render_contains_field. simpl. exact Hk.
  - rewrite run_stage_spec. unfold stage_result.
    destruct (stage_reply s st); reflexivity.
Qed.

(** X3: a stage whose request is answered stores the reply under its own key
    and returns it (an answer without text is stored and returned as it is
    read); it assigns no key outside [writes], sends one request,
    and leaves the files and the console alone.  A stage whose request
    fails raises that failure, having assigned nothing but, for [observe],
    the question. *)
Theorem stage_stores_only_its_key (s : stage) (st : state) :
  match stage_reply s st with
  | Text t =>
      fst (run_stage s st) = Ok (Some t)
      /\ get (stage_key s) (results (self (snd (run_stage s st)))) = Some t
  | Null =>
      fst (run_stage s st) = Ok (content_of s Null)
      /\ get (stage_key s) (results (self (snd (run_stage s st))))
         = content_of s Null
  | Failure d =>
      fst (run_stage s st) = Raise (ServiceError d)
      /\ get (stage_key s) (results (self (snd (run_stage s st))))
         = get (stage_key s) (results (self st))
  end
  /\ (forall k, k ∉ writes s ->
        get k (results (self (snd (run_stage s st))))
        = get k (results (self st)))
  /\ length (requests (outside (snd (run_stage s st))))
     = S (length (requests (outside st)))
  /\ files (outside (snd (run_stage s st))) = files (outside st)
  /\ console (outside (snd (run_stage s st))) = console (outside st)
  /\ log_file (self (snd (run_stage s st))) = log_file (self st).
Proof.
  rewrite run_stage_spec. unfold stage_result.
  assert (Hanswered : forall v,
    (forall k, k ∉ writes s ->
       get k (results (self (answered s v st))) = get k (results (self st)))
    /\ length (requests (outside (answered s v st)))
       = S (length (requests (outside st)))
    /\ files (outside (answered s v st)) = files (outside st)
    /\ console (outside (answered s v st)) = console (outside st)
    /\ log_file (self (answered s v st)) = log_file (self st)).
  { intros v. split; [intros k Hk; now apply get_answered|].
    split; [|now repeat split].
    unfold answered.
    change (requests (outside (with_results ?f ?x)))
      with (requests (outside x)).
    rewrite requests_interrupted, length_app. simpl. lia. }
  destruct (stage_reply s st) as [t| |d]; simpl fst; simpl snd.
  - split; [split; [reflexivity|apply get_answered_key]|apply Hanswered].
  - split; [split; [reflexivity|apply get_answered_key]|apply Hanswered].
  - split; [split; [reflexivity|]|].
    + rewrite results_interrupted.
      apply get_before_request_other, stage_key_not_question.
    + split; [intros k Hk; now apply get_interrupted|].
      split; [|now repeat split].
      rewrite requests_interrupted, length_app. simpl. lia.
Qed.

(** X4: the keys each prompt depends on, and nothing else: two records that
    agree on the keys a stage reads give the same prompt.  The observations
    reach the prompt of [hypothesize] only, and [analyze] is the only stage
    to read the experimental data. *)
Theorem stage_prompt_depends_on_reads (s : stage) (r r' : Results) :
  (forall question, reads (Observe question) = [])
  /\ reads Hypothesize = [Kquestion; Kobservations]
  /\ reads Predict = [Kquestion; Khypothesis]
  /\ reads Experiment = [Kquestion; Khypothesis; Kpredictions]
  /\ reads GenerateData
     = [Kquestion; Khypothesis; Kpredictions; Kexperiments]
  /\ reads Analyze
     = [Kexperimental_data; Kquestion; Khypothesis; Kpredictions;
        Kexperiments]
  /\ reads Conclude = [Kquestion; Khypothesis; Kanalysis]
  /\ ((forall k, k ∈ reads s -> get k r = get k r') ->
      stage_prompt s r = stage_prompt s r').
Proof.
  repeat (split; [reflexivity|]).
  intros H. apply stage_prompt_ext. now apply Forall_forall.
Qed.

(** * Further properties of whole runs *)

Lemma run_full_method_state (question : string) (generate_data : bool)
    (st : state) :
  snd (run_full_method question generate_data st)
  = snd (run_stages (pipeline question generate_data)
           (logged (question_line question) st)).
Proof.
  rewrite run_full_method_pipeline.
  destruct (run_stages _ _) as [[[]|e] st']; reflexivity.
Qed.

Lemma console_logged (m : string) (st : state) :
  console (outside (logged m st)) = console (outside st) ++ [m].
Proof. reflexivity. Qed.

Lemma files_logged_other (m f : string) (st : state) :
  f <> log_file (self st) ->
  files (outside (logged m st)) !! f = files (outside st) !! f.
Proof.
  intros Hf. unfold logged, with_world, on_files, append_file. simpl.
  apply lookup_insert_ne. congruence.
Qed.

(** Whatever a sequence of stages prints it also appends to the log file,
    in the same order, however the sequence ends. *)
Lemma run_stages_printed (l : list stage) :
  forall st,
    exists msgs,
      console (outside (snd (run_stages l st)))
      = console (outside st) ++ msgs
      /\ transcript (snd (run_stages l st))
         = transcript st ++ map line msgs.
Proof.
  induction l as [|s l IH]; intros st.
  - exists []. simpl. now rewrite !app_nil_r.
  - rewrite run_stages_cons.
    destruct (stage_result s (logged (stage_header s) st)) as [t|d].
    + destruct (IH (logged (stage_rule s)
                      (logged (nl +:+ py_str t +:+ nl)
                         (answered s t (logged (stage_header s) st)))))
        as (msgs & Hc & Ht).
      exists ([stage_header s; nl +:+ py_str t +:+ nl; stage_rule s] ++ msgs).
      rewrite Hc, Ht, !transcript_logged, transcript_answered,
        transcript_logged, !console_logged.
      change (console (outside (answered s t ?x))) with (console (outside x)).
      rewrite console_logged, map_app, <- !app_assoc. now split.
    + exists [stage_header s]. simpl snd.
      rewrite transcript_interrupted, transcript_logged.
      change (console (outside (interrupted s ?x)))
        with (console (outside x)).
      now rewrite console_logged.
Qed.

(** A sequence of stages writes to no file but the log. *)
Lemma run_stages_files (l : list stage) (f : string) :
  forall st,
    f <> log_file (self st) ->
    files (outside (snd (run_stages l st))) !! f = files (outside st) !! f.
Proof.
  induction l as [|s l IH]; intros st Hf; [reflexivity|].
  rewrite run_stages_cons.
  destruct (stage_result s (logged (stage_header s) st)) as [t|d].
  - rewrite IH by exact Hf. rewrite !files_logged_other by exact Hf.
    change (files (outside (answered s t ?x))) with (files (outside x)).
    now rewrite files_logged_other.
  - simpl snd. change (files (outside (interrupted s ?x)))
      with (files (outside x)).
    now rewrite files_logged_other.
Qed.

(** X5: everything [run_full_method] prints it appends, line by line and in the
    same order, to the log file, whether the run completes or raises. *)
Theorem run_logs_what_it_prints (question : string) (generate_data : bool)
    (st : state) :
  exists msgs,
    console (outside (snd (run_full_method question generate_data st)))
    = console (outside st) ++ msgs
    /\ transcript (snd (run_full_method question generate_data st))
       = transcript st ++ map line msgs
    /\ head msgs = Some (question_line question).
Proof.
  rewrite run_full_method_state.
  destruct (run_stages_printed (pipeline question generate_data)
              (logged (question_line question) st)) as (msgs & Hc & Ht).
  exists (question_line question :: msgs).
  rewrite Hc, Ht, console_logged, transcript_logged, <- !app_assoc.
  now repeat split.
Qed.

Lemma run_writes_only_the_log_aux (question : string)
    (generate_data : bool) (st : state) :
  log_file (self (snd (run_full_method question generate_data st)))
  = log_file (self st)
  /\ model (self (snd (run_full_method question generate_data st)))
     = model (self st).
Proof.
  rewrite run_full_method_state.
  destruct (run_stages _ _) as [o st'] eqn:Hrun.
  apply run_stages_object in Hrun. exact (conj (proj2 Hrun) (proj1 Hrun)).
Qed.

(** X6: [run_full_method] writes to no file but the log file of its object,
    whether it completes or raises, and keeps the log file and the model of
    the object. *)
Theorem run_writes_only_the_log (question : string) (generate_data : bool)
    (st : state) (f : string) :
  f <> log_file (self st) ->
  files (outside (snd (run_full_method question generate_data st))) !! f
  = files (outside st) !! f
  /\ log_file (self (snd (run_full_method question generate_data st)))
     = log_file (self st)
  /\ model (self (snd (run_full_method question generate_data st)))
     = model (self st).
Proof.
  intros Hf. split; [|apply run_writes_only_the_log_aux].
  rewrite run_full_method_state.
  rewrite run_stages_files by exact Hf. now apply files_logged_other.
Qed.

(** X7: [main] writes the results file exactly when it completes: after a
    usage error, a rejected credential or a failed request the file holds
    what it held before; after a completed run it holds one dump, of the
    record that run returned. *)
Theorem results_file_written_iff_completed (args : Namespace) (w : world) :
  let q := py_str (resolve_question args (env_question_of (environ w))) in
  match fst (script args w) with
  | Ok _ =>
      exists r st,
        run_full_method q (args_generate_data args) (constructed w)
        = (Ok r, st)
        /\ r = results (self st)
        /\ files (snd (script args w)) !! results_file
           = Some [Dumped (to_json r) 2]
  | Raise _ =>
      files (snd (script args w)) !! results_file = files w !! results_file
  end.
Proof.
  intros q. rewrite script_spec. cbv zeta.
  destruct (truthy _); [|reflexivity].
  change (negb true) with false. cbv beta iota.
  destruct (OpenAI_rejects (credential w)); [reflexivity|].
  fold q.
  destruct (run_full_method q _ (constructed w)) as [[r|e] st] eqn:Hrun.
  - exists r, st. split; [reflexivity|].
    assert (Hr : r = results (self st))
      by (now apply run_full_method_ok in Hrun).
    split; [exact Hr|]. simpl fst. simpl snd. rewrite Hr.
    apply files_saved.
    assert (Hst : st = snd (run_full_method q (args_generate_data args)
                              (constructed w)))
      by now rewrite Hrun.
    rewrite Hst.
    destruct (run_writes_only_the_log_aux q (args_generate_data args)
                (constructed w)) as [-> _].
    apply default_log_file_not_results_file.
  - simpl fst. simpl snd.
    assert (Hst : st = snd (run_full_method q (args_generate_data args)
                              (constructed w)))
      by now rewrite Hrun.
    rewrite Hst, run_full_method_state, run_stages_files, files_logged_other.
    + unfold constructed, on_files, write_file. simpl.
      apply lookup_insert_ne. apply default_log_file_not_results_file.
    + intros H. symmetry in H. revert H.
      apply default_log_file_not_results_file.
    + intros H. symmetry in H. revert H.
      apply default_log_file_not_results_file.
Qed.

(** X8: the transcript of a completed run: what the log held before, the
    question line, then for every stage of the pipeline its header, its
    result as the record holds it, and its rule. *)
Theorem completed_run_transcript (question : string) (generate_data : bool)
    (st : state) (r : Results) (st' : state) :
  run_full_method question generate_data st = (Ok r, st') ->
  transcript st'
  = transcript st
    ++ line (question_line question)
       :: flat_map (stage_entries r) (pipeline question generate_data).
Proof.
  intros Hrun. apply run_full_method_ok in Hrun as [Hrun ->].
  rewrite (run_stages_transcript _
             (pipeline_forward question generate_data) _ _ Hrun).
  rewrite transcript_logged, <- app_assoc. reflexivity.
Qed.

(** X9: the requests of a completed run: one per stage and in pipeline order,
    seven with data generation and six without; the first is the
    web-search request of [observe], all the others are chat requests, and
    every prompt is the one its stage renders on the final record. *)
Theorem completed_run_requests (question : string) (generate_data : bool)
    (st : state) (r : Results) (st' : state) :
  run_full_method question generate_data st = (Ok r, st') ->
  exists chats,
    requests (outside st')
    = requests (outside st)
      ++ ResponsesCreate (model (self st)) true
           (render r (observe_prompt question))
         :: chats
    /\ chats = map (fun s => ChatCompletionsCreate (model (self st))
                               (stage_prompt s r))
                 (tl (pipeline question generate_data))
    /\ length chats = if generate_data then 6 else 5.
Proof.
  intros Hrun. apply run_full_method_ok in Hrun as [Hrun ->].
  rewrite (run_stages_requests _
             (pipeline_forward question generate_data) _ _ Hrun).
  apply run_stages_object in Hrun as [Hmodel _].
  rewrite self_logged in Hmodel. rewrite requests_logged.
  eexists. split; [|split; [reflexivity|]].
  - unfold pipeline. cbn [app map tl]. unfold stage_request at 1.
    rewrite Hmodel. f_equal. f_equal.
    destruct generate_data; cbn [app map stage_request]; now rewrite Hmodel.
  - destruct generate_data; reflexivity.
Qed.

(** X10: running without data generation does not clear [experimental_data]: on
    an object that still holds the data of an earlier run, the completed
    run keeps them, and [analyze] is sent these old data under the label
    "Experimental Results:" instead of the no-data note. *)
Theorem no_data_run_keeps_old_data (question : string) (st : state)
    (d : string) (r : Results) (st' : state) :
  get Kexperimental_data (results (self st)) = Some d ->
  d <> blank ->
  run_full_method question false st = (Ok r, st') ->
  get Kexperimental_data r = Some d
  /\ data_context r = nl +:+ "Experimental Results:" +:+ nl +:+ d
  /\ ChatCompletionsCreate (model (self st))
       (render r analyze_prefix
        +:+ (nl +:+ "Experimental Results:" +:+ nl +:+ d)
        +:+ render r analyze_suffix)
     ∈ requests (outside st').
Proof.
  intros Hd Hne Hrun. apply run_full_method_ok in Hrun as [Hrun ->].
  assert (Hkept : get Kexperimental_data (results (self st')) = Some d).
  { rewrite (run_stages_frame _ _ (pipeline_no_data question) _ _ _ Hrun).
    exact Hd. }
  assert (Hctx : data_context (results (self st'))
                 = nl +:+ "Experimental Results:" +:+ nl +:+ d).
  { unfold data_context. rewrite Hkept. simpl truthy.
    apply String.eqb_neq in Hne. now rewrite Hne. }
  split; [exact Hkept|]. split; [exact Hctx|].
  rewrite (run_stages_requests _ (pipeline_forward question false) _ _ Hrun).
  apply run_stages_object in Hrun as [Hmodel _].
  rewrite self_logged in Hmodel.
  apply elem_of_app. right. unfold pipeline. cbn [app map].
  rewrite !elem_of_cons. do 4 right. left.
  unfold stage_request, stage_prompt, analyze_prompt.
  rewrite Hmodel, !render_app. f_equal. f_equal. f_equal.
  unfold render. cbn [map String.concat render_piece]. exact (eq_sym Hctx).
Qed.

Lemma ordered_from_sound_aux (generate_data : bool) (r : Results)
    (ks : list key) :
  ordered_from generate_data r ks = true ->
  forall i j ki kj,
    ks !! i = Some ki -> ks !! j = Some kj -> i < j ->
    populated kj r = true ->
    populated ki r = true
    \/ (ki = Kexperimental_data /\ generate_data = false).
Proof.
  induction ks as [|k ks IH]; intros Hord i j ki kj Hi Hj Hlt Hpop.
  - now rewrite lookup_nil in Hi.
  - simpl in Hord. apply andb_true_iff in Hord as [Hhead Htail].
    destruct j as [|j]; [lia|]. simpl in Hj.
    destruct i as [|i].
    + simpl in Hi. inversion Hi; subst ki.
      apply orb_true_iff in Hhead as [Hhead|Hnone].
      * apply orb_true_iff in Hhead as [Hk|Hex]; [now left|].
        apply andb_true_iff in Hex as [Hk Hg]. right. split.
        -- now apply bool_decide_eq_true in Hk.
        -- now apply negb_true_iff in Hg.
      * exfalso. rewrite forallb_forall in Hnone.
        assert (Hin : In kj ks).
        { apply list_elem_of_In. eapply list_elem_of_lookup_2. exact Hj. }
        specialize (Hnone kj Hin). rewrite Hpop in Hnone. discriminate.
    + simpl in Hi. apply (IH Htail i j ki kj Hi Hj); [lia|exact Hpop].
Qed.

Lemma ordered_from_sound (generate_data : bool) (r : Results) :
  ordered_from generate_data r all_keys = true ->
  in_pipeline_order generate_data r.
Proof. intros H i j ki kj. now apply ordered_from_sound_aux. Qed.

(** X11: on a new object, and with a service that never answers without a
    text, the keys are populated in pipeline order whenever
    [run_full_method] stops, be it at its end or at the failure of any
    request: a populated key is never preceded by an absent one
    ([experimental_data] apart when data generation is off). *)
Theorem new_object_keys_in_order (question : string) (generate_data : bool)
    (st : state) :
  always_text ->
  results (self st) = empty_results ->
  in_pipeline_order generate_data
    (results (self (snd (run_full_method question generate_data st)))).
Proof.
  intros Htext Hempty. apply ordered_from_sound.
  rewrite run_full_method_state.
  destruct st as [[m lf r] w]. simpl in Hempty. subst r.
  destruct generate_data; unfold pipeline; cbn [app];
    repeat (rewrite run_stages_cons;
            match goal with
            | |- context [stage_result ?s ?x] =>
                let E := fresh "E" in
                destruct (stage_result s x) as [v|d] eqn:E;
                [apply (stage_result_always_text _ _ _ Htext) in E as [? ->]
                |reflexivity]
            end);
    reflexivity.
Qed.

(** * Further properties of the exporter, the constructor and the command
    line *)

(** X12: [save_results] with its default file name, or with the name of the
    log file of its object, leaves the record alone.  It replaces whatever
    the named file held by one dump of the record and then logs that it
    did; every other file but the log is untouched.  Given the name of the
    log file itself, it wipes the transcript: the log then holds the dump
    followed by the one line logged afterwards. *)
Theorem save_results_overwrites (filename : string) (st : state) :
  filename = results_file \/ filename = log_file (self st) ->
  let st' := snd (save_results filename st) in
  let doc := Dumped (to_json (results (self st))) 2 in
  let note := line (nl +:+ "Results saved to " +:+ filename) in
  results (self st') = results (self st)
  /\ (log_file (self st) <> filename ->
      files (outside st') !! filename = Some [doc]
      /\ transcript st' = transcript st ++ [note])
  /\ (log_file (self st) = filename -> transcript st' = [doc; note])
  /\ (forall g, g <> filename -> g <> log_file (self st) ->
        files (outside st') !! g = files (outside st) !! g).
Proof.
  intros _. cbv zeta. rewrite save_results_spec. simpl snd.
  split; [reflexivity|]. split; [|split].
  - intros Hne. split; [now apply files_saved|now apply transcript_saved].
  - intros <-. unfold saved. rewrite transcript_logged.
    unfold transcript, with_world, on_files, write_file. simpl.
    now rewrite lookup_insert_eq.
  - intros g Hf Hlog. unfold saved.
    rewrite files_logged_other by exact Hlog.
    unfold with_world, on_files, write_file. simpl.
    apply lookup_insert_ne. congruence.
Qed.

(** X13: the dumped document always has the eight keys of the record, each once
    and in the order of the dictionary; its null members are exactly the
    keys that are not populated, and every populated key carries its text
    unchanged. *)
Theorem dump_members (r : Results) :
  map fst (to_json r) = map key_name all_keys
  /\ NoDup (map fst (to_json r))
  /\ null_members (to_json r)
     = map key_name (List.filter (fun k => negb (populated k r)) all_keys)
  /\ non_null_members (to_json r)
     = map key_name (List.filter (fun k => populated k r) all_keys)
  /\ length (null_members (to_json r))
     + length (non_null_members (to_json r)) = 8
  /\ forall k,
       (key_name k,
        match get k r with Some s => JString s | None => JNull end)
       ∈ to_json r.
Proof using Type.
  clear service OpenAI_rejects dotenv now.
  split; [reflexivity|]. split.
  { change (map fst (to_json r)) with (map key_name all_keys).
    cbv [map all_keys key_name].
    repeat (apply NoDup_cons_2;
            [rewrite ?elem_of_cons, elem_of_nil; intuition discriminate|]).
    apply NoDup_nil_2. }
  destruct r as [q o h p e d a c]. split; [|split; [|split]].
  - destruct q, o, h, p, e, d, a, c; reflexivity.
  - destruct q, o, h, p, e, d, a, c; reflexivity.
  - destruct q, o, h, p, e, d, a, c; reflexivity.
  - intros k. unfold to_json. apply list_elem_of_In, in_map_iff.
    exists k. split; [reflexivity|]. destruct k; simpl; tauto.
Qed.

(** X14: [ScientificMethod(api_key)], with no log file named: a key given to
    the constructor is used instead of the environment.  When the client
    constructor raises, no file has been touched.  Otherwise the object
    starts from the empty record with the model gpt-5, its log file is the
    time-stamped one and holds the header line and nothing else, whatever
    it held before, and no other file, request or output is affected. *)
Theorem init_resets_the_log (api_key : option string) (w : world) :
  let key := match api_key with
             | Some k => Some k
             | None => credential w
             end in
  match OpenAI_rejects key with
  | Some detail =>
      ScientificMethod_init api_key None w
      = (Raise (ClientError detail), dotenv_loaded w)
      /\ files (dotenv_loaded w) = files w
  | None =>
      exists sm w',
        ScientificMethod_init api_key None w = (Ok sm, w')
        /\ results sm = empty_results
        /\ model sm = "gpt-5"
        /\ log_file sm = default_log_file
        /\ files w' !! default_log_file = Some [first_log]
        /\ (forall g, g <> default_log_file -> files w' !! g = files w !! g)
        /\ requests w' = requests w
        /\ console w' = console w
  end.
Proof.
  cbv zeta.
  unfold ScientificMethod_init, bind, load_dotenv, modify, getenv, gets,
    raise, ret.
  destruct api_key as [k|].
  - destruct (OpenAI_rejects (Some k)); [now split|].
    eexists _, _. split; [reflexivity|].
    simpl. repeat split.
    + unfold write_file. apply lookup_insert_eq.
    + intros g Hg. unfold write_file. apply lookup_insert_ne.
      intros E. apply Hg. symmetry. exact E.
  - change (environ (mkWorld (environ w ∪ dotenv) (files w) (console w)
                       (requests w)) !! "OPENAI_API_KEY")
      with (credential w).
    destruct (OpenAI_rejects (credential w)); [now split|].
    eexists _, _. split; [reflexivity|].
    simpl. repeat split.
    + unfold write_file. apply lookup_insert_eq.
    + intros g Hg. unfold write_file. apply lookup_insert_ne.
      intros E. apply Hg. symmetry. exact E.
Qed.

(** X15: a question that is defined only in the [.env] file is not used:
    [env_question] is read when the module is loaded, before [main] calls
    [load_dotenv()].  With no question on the command line and the variable
    unset in the environment proper, the run asks the built-in default
    question although the variable is set by the time the run starts. *)
Theorem dotenv_question_is_ignored (args : Namespace) (w : world)
    (v : string) :
  truthy (args_question_flag args) = false ->
  truthy (args_question args) = false ->
  environ w !! "SCIENTIFIC_METHOD_QUESTION" = None ->
  dotenv !! "SCIENTIFIC_METHOD_QUESTION" = Some v ->
  resolve_question args (env_question_of (environ w)) = Some default_question
  /\ environ (dotenv_loaded w) !! "SCIENTIFIC_METHOD_QUESTION" = Some v
  /\ script args w =
       match OpenAI_rejects (credential w) with
       | Some detail => (Raise (ClientError detail), dotenv_loaded w)
       | None =>
           match run_full_method default_question (args_generate_data args)
                   (constructed w) with
           | (Ok _, st) => (Ok tt, outside (saved results_file st))
           | (Raise e, st) => (Raise e, outside st)
           end
       end.
Proof.
  intros Hf Hp Henv Hdot.
  assert (Hq : resolve_question args (env_question_of (environ w))
               = Some default_question).
  { rewrite resolve_question_chain, Hf, Hp. unfold env_question_of.
    now rewrite Henv. }
  split; [exact Hq|]. split.
  - unfold dotenv_loaded. simpl. rewrite lookup_union, Henv, Hdot.
    reflexivity.
  - rewrite script_spec. cbv zeta. rewrite Hq. reflexivity.
Qed.

(** X17: data that are present but empty count as absent: when the data stage
    stored the empty text, the key is populated and yet [analyze] builds
    its prompt with the no-data note. *)
Theorem empty_data_uses_note (st : state) :
  get Kexperimental_data (results (self st)) = Some blank ->
  let r := results (self st) in
  populated Kexperimental_data r = true
  /\ data_context r = no_data_note
  /\ requests (outside (snd (analyze st)))
     = requests (outside st)
       ++ [ChatCompletionsCreate (model (self st))
             (render r analyze_prefix +:+ no_data_note
              +:+ render r analyze_suffix)].
Proof.
  intros Hd r.
  assert (Hctx : data_context r = no_data_note).
  { unfold data_context, r. now rewrite Hd. }
  split; [unfold populated, r; now rewrite Hd|]. split; [exact Hctx|].
  change analyze with (run_stage Analyze). rewrite run_stage_requests.
  f_equal. f_equal.
  change (stage_request Analyze (self (with_results (before_request Analyze) st)))
    with (ChatCompletionsCreate (model (self st))
            (render r (analyze_prompt r))).
  f_equal. unfold analyze_prompt. rewrite !render_app, Hctx. reflexivity.
Qed.

(** X18: with data generation on, a question, an accepted credential and a
    service that answers, [main] completes: all eight keys are populated,
    seven requests are sent, the transcript holds the seven stage headers,
    that of step 4b among them, and the results file holds one dump without
    a null member. *)
Theorem data_run (args : Namespace) (w : world) :
  let q := py_str (resolve_question args (env_question_of (environ w))) in
  args_generate_data args = true ->
  truthy (resolve_question args (env_question_of (environ w))) = true ->
  OpenAI_rejects (credential w) = None ->
  (forall h c, exists t, service h c = Text t) ->
  exists r st,
    run_full_method q true (constructed w) = (Ok r, st)
    /\ script args w = (Ok tt, outside (saved results_file st))
    /\ (forall k, populated k r = true)
    /\ length (requests (outside (saved results_file st)))
       = length (requests w) + 7
    /\ stage_headers (transcript (saved results_file st))
       = map (fun s => Written (stage_header s +:+ nl)) (pipeline q true)
    /\ Written (stage_header GenerateData +:+ nl)
         ∈ transcript (saved results_file st)
    /\ files (outside (saved results_file st)) !! results_file
       = Some [Dumped (to_json r) 2]
    /\ null_members (to_json r) = [].
Proof.
  intros q Hgd Hq Hkey Hservice.
  destruct (run_full_method_completes q true (constructed w) Hservice)
    as (r & st & Hrun).
  exists r, st. split; [exact Hrun|].
  split.
  { rewrite script_spec. cbv zeta. rewrite Hq, Hkey, Hgd.
    change (negb true) with false. cbv beta iota. fold q. now rewrite Hrun. }
  destruct (completed_run_facts q true (constructed w) r st Hrun)
    as (Hr & Hstages & Hquestion & Hall).
  specialize (Hall (total_text_always_text Hservice)).
  assert (Hpop : forall k, populated k r = true).
  { intros k. apply Hall. reflexivity. }
  assert (Hobj := run_stages_object _ _ _ _ Hstages).
  destruct Hobj as [_ Hlog]. rewrite self_logged in Hlog.
  assert (Hlogfile : log_file (self st) <> results_file).
  { rewrite Hlog. apply default_log_file_not_results_file. }
  assert (Htranscript :
    stage_headers (transcript (saved results_file st))
    = map (fun s => Written (stage_header s +:+ nl)) (pipeline q true)).
  { rewrite (transcript_saved _ _ Hlogfile).
    rewrite (run_stages_transcript _ (pipeline_forward q true) _ _ Hstages).
    rewrite transcript_logged, transcript_constructed.
    rewrite !stage_headers_app, stage_headers_entries.
    unfold stage_headers at 1 2 3. cbn [List.filter].
    rewrite question_line_is_not_stage_header.
    change (is_stage_header first_log) with false.
    change (is_stage_header
              (Written ((nl +:+ "Results saved to " +:+ results_file) +:+ nl)))
      with false.
    cbn [app]. now rewrite app_nil_r. }
  split; [exact Hpop|]. split.
  { rewrite requests_saved.
    rewrite (run_stages_requests _ (pipeline_forward q true) _ _ Hstages).
    rewrite length_app, length_map, requests_logged. reflexivity. }
  split; [exact Htranscript|]. split.
  { assert (Hin : Written (stage_header GenerateData +:+ nl)
                    ∈ stage_headers (transcript (saved results_file st))).
    { rewrite Htranscript. unfold pipeline. cbn [app map].
      rewrite !elem_of_cons. do 4 right. now left. }
    unfold stage_headers in Hin.
    apply list_elem_of_In, List.filter_In in Hin as [Hin _].
    now apply list_elem_of_In. }
  split; [rewrite Hr; now apply files_saved|].
  pose proof (Hpop Kquestion) as H1. pose proof (Hpop Kobservations) as H2.
  pose proof (Hpop Khypothesis) as H3. pose proof (Hpop Kpredictions) as H4.
  pose proof (Hpop Kexperiments) as H5.
  pose proof (Hpop Kexperimental_data) as H6.
  pose proof (Hpop Kanalysis) as H7. pose proof (Hpop Kconclusion) as H8.
  clear -H1 H2 H3 H4 H5 H6 H7 H8.
  destruct r as [a b c d e f g h]. unfold populated in *. simpl in *.
  destruct a, b, c, d, e, f, g, h; try discriminate. reflexivity.
Qed.

End Program.

(** * The properties at concrete inputs *)

(** C1, as stated, fails: on a new record [observe] also sets [question]. *)
Lemma observe_also_sets_question :
  ~ (forall service question st x st',
       results (self st) = empty_results ->
       observe service question st = (Ok x, st') ->
       forall k, k <> Kobservations ->
         get k (results (self st')) = get k (results (self st))).
Proof.
  intros H.
  specialize (H (scripted seven_replies) "Q" new_object (Some "observed")
                (snd (observe (scripted seven_replies) "Q" new_object))
                eq_refl eq_refl Kquestion).
  specialize (H ltac:(discriminate)). vm_compute in H. discriminate.
Qed.

Lemma observe_populates_witness :
  (exists st',
     observe (scripted seven_replies) "Q" new_object
     = (Ok (Some "observed"), st')
     /\ get Kquestion (results (self st')) = Some "Q"
     /\ get Kobservations (results (self st')) = Some "observed"
     /\ forall k, k <> Kquestion -> k <> Kobservations ->
          get k (results (self st')) = get k (results (self new_object)))
  /\ (exists st',
       observe (scripted []) "Q" new_object
       = (Raise (ServiceError "no reply"), st')
       /\ get Kquestion (results (self st')) = Some "Q"
       /\ forall k, k <> Kquestion ->
            get k (results (self st')) = get k (results (self new_object))).
Proof.
  split.
  - apply (observe_populates (scripted seven_replies) "Q" new_object).
    reflexivity.
  - apply (observe_populates (scripted []) "Q" new_object). reflexivity.
Defined.

(** C2, as stated, fails: a flag that is present but empty does not win over
    the positional argument. *)
Lemma empty_flag_does_not_win :
  ~ (forall args env f,
       args_question_flag args = Some f ->
       resolve_question args (env_question_of env) = Some f).
Proof.
  intros H.
  specialize (H (mkNamespace (Some "positional") (Some blank) true) ∅ blank
                eq_refl).
  vm_compute in H. discriminate.
Qed.

Lemma question_priority_witness :
  resolve_question (mkNamespace (Some "positional") (Some blank) true)
    (env_question_of (environ bare_world)) = Some "positional"
  /\ truthy (Some "positional") = true
  /\ forall n m,
       fst (script (always "ok") key_required ∅ noon
              (mkNamespace (Some "positional") (Some blank) true) bare_world)
       <> Raise (SystemExit n m).
Proof.
  exact (question_priority (always "ok") key_required ∅ noon
           (mkNamespace (Some "positional") (Some blank) true) bare_world).
Defined.

Lemma analyze_prompt_data_witness :
  exists prompt,
    requests (outside (snd (analyze (always "ok") used_object)))
    = [ChatCompletionsCreate "gpt-5" prompt]
    /\ occurs_in "D" prompt.
Proof.
  destruct (analyze_prompt_data (always "ok") used_object)
    as (prompt & Hsent & _ & Hdata).
  exists prompt. split; [exact Hsent|]. apply (Hdata "D"). reflexivity.
Defined.

(** C4, as stated, fails: a request answered without a text lets its stage
    complete with its key absent, and the later stages go on. *)
Lemma null_content_breaks_order :
  ~ (forall service question generate_data st r st',
       run_full_method service question generate_data st = (Ok r, st') ->
       in_pipeline_order generate_data r).
Proof.
  intros H.
  assert (E : run_full_method (scripted null_hypothesis_replies) "Q" true
                new_object
              = (Ok (results (self (snd (run_full_method
                                           (scripted null_hypothesis_replies)
                                           "Q" true new_object)))),
                 snd (run_full_method (scripted null_hypothesis_replies)
                        "Q" true new_object)))
    by (vm_compute; reflexivity).
  specialize (H _ _ _ _ _ _ E 2 3 Khypothesis Kpredictions eq_refl eq_refl).
  assert (Hp : populated Kpredictions
                 (results (self (snd (run_full_method
                                        (scripted null_hypothesis_replies)
                                        "Q" true new_object)))) = true)
    by (vm_compute; reflexivity).
  assert (Hh : populated Khypothesis
                 (results (self (snd (run_full_method
                                        (scripted null_hypothesis_replies)
                                        "Q" true new_object)))) = false)
    by (vm_compute; reflexivity).
  specialize (H ltac:(lia) Hp). rewrite Hh in H.
  destruct H as [H|[H _]].
  - inversion H.
  - inversion H.
Qed.

Lemma completed_run_in_order_witness :
  let run := run_full_method (always "ok") "Q" true new_object in
  in_pipeline_order true (results (self (snd run)))
  /\ get Kquestion (results (self (snd run))) = Some "Q".
Proof.
  intros run.
  destruct (completed_run_in_order (always "ok") "Q" true
              new_object (results (self (snd run))) (snd run))
    as (_ & Hq & _ & Htext).
  - vm_compute. reflexivity.
  - split; [|exact Hq]. apply Htext. intros h c. discriminate.
Defined.

Lemma no_data_run_witness :
  exists r st,
    run_full_method (always "ok") "Does rapamycin increase lifespan?" false
      (constructed ∅ noon keyed_world) = (Ok r, st)
    /\ get Kexperimental_data r = None
    /\ length (stage_headers (transcript (saved results_file st))) = 6
    /\ null_members (to_json r) = ["experimental_data"]
    /\ length (non_null_members (to_json r)) = 7.
Proof.
  destruct (no_data_run (always "ok") key_required ∅ noon no_data_args
              keyed_world)
    as (r & st & Hrun & _ & _ & Hd & _ & _ & _ & _ & _ & Hsix & _ & _
        & Hnull & Hseven).
  - reflexivity.
  - reflexivity.
  - vm_compute. reflexivity.
  - intros h c. exists "ok". reflexivity.
  - exists r, st. repeat split; assumption.
Defined.



(** C7, as stated, fails: without a credential the program ends with the
    exception of the client constructor, not with a usage error. *)
Lemma missing_credential_is_no_usage_error :
  ~ (forall service OpenAI_rejects dotenv now args w,
       credential dotenv w = None ->
       exists message w',
         script service OpenAI_rejects dotenv now args w
         = (Raise (SystemExit 2 message), w')).
Proof.
  intros H.
  destruct (H (always "ok") key_required ∅ noon no_data_args bare_world)
    as (message & w' & E); [vm_compute; reflexivity|].
  vm_compute in E. discriminate.
Qed.

Lemma missing_credential_witness :
  script (always "ok") key_required ∅ noon no_data_args bare_world
  = (Raise (ClientError "The api_key client option must be set"),
     dotenv_loaded ∅ bare_world)
  /\ requests (dotenv_loaded ∅ bare_world) = requests bare_world
  /\ files (dotenv_loaded ∅ bare_world) = files bare_world.
Proof.
  destruct (missing_credential (always "ok") key_required ∅ noon
              no_data_args bare_world) as [Hraise _].
  - reflexivity.
  - vm_compute. reflexivity.
  - apply Hraise. reflexivity.
Defined.




Lemma empty_question_is_absent_witness :
  exists n m,
    fst (script (always "ok") key_required ∅ noon
           (mkNamespace (Some blank) (Some blank) true)
           (mkWorld {[ "SCIENTIFIC_METHOD_QUESTION" := blank ]} ∅ [] []))
    = Raise (SystemExit n m).
Proof.
  destruct (empty_question_is_absent (always "ok") key_required ∅ noon
              (mkNamespace (Some blank) (Some blank) true)
              (mkWorld {[ "SCIENTIFIC_METHOD_QUESTION" := blank ]} ∅ [] []))
    as (_ & _ & _ & _ & Hexit & _).
  apply Hexit. repeat split.
Defined.

(** ** The further properties at concrete inputs *)

Lemma stage_prompt_threads_results_witness :
  exists c,
    requests (outside (snd (run_stage (always "ok") Hypothesize used_object)))
    = requests (outside used_object) ++ [c]
    /\ occurs_in "O" (prompt_of c).
Proof.
  apply (stage_prompt_threads_results (always "ok") Hypothesize used_object
           Kobservations "O").
  - simpl. rewrite !elem_of_cons. right. now left.
  - reflexivity.
Defined.

Lemma stage_renders_missing_as_none_witness :
  exists c,
    requests (outside (snd (run_stage (always "ok") Hypothesize new_object)))
    = requests (outside new_object) ++ [c]
    /\ occurs_in "None" (prompt_of c)
    /\ fst (run_stage (always "ok") Hypothesize new_object) = Ok (Some "ok").
Proof.
  apply (stage_renders_missing_as_none (always "ok") Hypothesize new_object
           Kobservations).
  - simpl. rewrite !elem_of_cons. right. now left.
  - discriminate.
  - reflexivity.
Defined.

Lemma stage_stores_only_its_key_witness :
  get Kpredictions
    (results (self (snd (run_stage (always "ok") Predict used_object))))
  = Some "ok"
  /\ get Khypothesis
       (results (self (snd (run_stage (always "ok") Predict used_object))))
     = get Khypothesis (results (self used_object)).
Proof.
  destruct (stage_stores_only_its_key (always "ok") Predict used_object)
    as ([_ Hkey] & Hframe & _).
  split; [exact Hkey|]. apply Hframe. simpl.
  rewrite elem_of_cons, elem_of_nil. intuition discriminate.
Defined.

Lemma stage_prompt_depends_on_reads_witness :
  stage_prompt Predict (results (self used_object))
  = stage_prompt Predict
      (set Kobservations (Some "other") (results (self used_object))).
Proof.
  destruct (stage_prompt_depends_on_reads Predict (results (self used_object))
              (set Kobservations (Some "other") (results (self used_object))))
    as (_ & _ & _ & _ & _ & _ & _ & Hext).
  apply Hext. intros k Hk. simpl in Hk.
  rewrite !elem_of_cons, elem_of_nil in Hk.
  destruct Hk as [->|[->|[]]]; reflexivity.
Defined.

Lemma run_logs_what_it_prints_witness :
  exists msgs,
    console (outside (snd (run_full_method (scripted [Text "observed"]) "Q"
                             true new_object)))
    = console (outside new_object) ++ msgs
    /\ transcript (snd (run_full_method (scripted [Text "observed"]) "Q"
                          true new_object))
       = transcript new_object ++ map line msgs
    /\ head msgs = Some (question_line "Q").
Proof.
  exact (run_logs_what_it_prints (scripted [Text "observed"]) "Q" true
           new_object).
Defined.

Lemma run_writes_only_the_log_witness :
  files (outside (snd (run_full_method (always "ok") "Q" true new_object)))
    !! "notes.txt"
  = files (outside new_object) !! "notes.txt".
Proof.
  apply (run_writes_only_the_log (always "ok") "Q" true new_object
           "notes.txt").
  discriminate.
Defined.

Lemma results_file_written_iff_completed_witness :
  files (snd (script (scripted [Text "observed"]) key_required ∅ noon
                data_args keyed_world)) !! results_file
  = files keyed_world !! results_file.
Proof.
  pose proof (results_file_written_iff_completed
                (scripted [Text "observed"]) key_required ∅ noon
                data_args keyed_world) as H.
  assert (E : fst (script (scripted [Text "observed"]) key_required ∅ noon
                     data_args keyed_world)
              = Raise (ServiceError "no reply"))
    by (vm_compute; reflexivity).
  rewrite E in H. exact H.
Defined.

Lemma completed_run_transcript_witness :
  let run := run_full_method (always "ok") "Q" false new_object in
  transcript (snd run)
  = transcript new_object
    ++ line (question_line "Q")
       :: flat_map (stage_entries (results (self (snd run))))
            (pipeline "Q" false).
Proof.
  intros run.
  apply (completed_run_transcript (always "ok") "Q" false new_object
           (results (self (snd run))) (snd run)).
  vm_compute. reflexivity.
Defined.

Lemma completed_run_requests_witness :
  let run := run_full_method (always "ok") "Q" true new_object in
  exists chats,
    requests (outside (snd run))
    = requests (outside new_object)
      ++ ResponsesCreate "gpt-5" true
           (render (results (self (snd run))) (observe_prompt "Q"))
         :: chats
    /\ length chats = 6.
Proof.
  intros run.
  destruct (completed_run_requests (always "ok") "Q" true new_object
              (results (self (snd run))) (snd run))
    as (chats & Hreq & _ & Hlen).
  - vm_compute. reflexivity.
  - exists chats. split; [exact Hreq|exact Hlen].
Defined.

Lemma no_data_run_keeps_old_data_witness :
  let run := run_full_method (always "ok") "Q2" false used_object in
  get Kexperimental_data (results (self (snd run))) = Some "D"
  /\ data_context (results (self (snd run)))
     = nl +:+ "Experimental Results:" +:+ nl +:+ "D".
Proof.
  intros run.
  destruct (no_data_run_keeps_old_data (always "ok") "Q2" used_object "D"
              (results (self (snd run))) (snd run))
    as (Hkept & Hctx & _).
  - reflexivity.
  - discriminate.
  - vm_compute. reflexivity.
  - split; [exact Hkept|exact Hctx].
Defined.

Lemma new_object_keys_in_order_witness :
  fst (run_full_method (answers_then_fails 2) "Q" true new_object)
  = Raise (ServiceError "service down")
  /\ in_pipeline_order true
       (results (self (snd (run_full_method (answers_then_fails 2) "Q" true
                              new_object)))).
Proof.
  split; [reflexivity|].
  apply (new_object_keys_in_order (answers_then_fails 2) "Q" true new_object).
  - intros h c. unfold answers_then_fails.
    destruct (Nat.ltb (length h) 2); discriminate.
  - reflexivity.
Defined.

Lemma save_results_overwrites_witness :
  transcript (snd (save_results "run.log" used_object))
  = [Dumped (to_json (results (self used_object))) 2;
     line (nl +:+ "Results saved to " +:+ "run.log")].
Proof.
  destruct (save_results_overwrites "run.log" used_object)
    as (_ & _ & Hwipe & _).
  - right. reflexivity.
  - apply Hwipe. reflexivity.
Defined.

Lemma dump_members_witness :
  null_members (to_json (results (self new_object)))
  = map key_name
      (List.filter (fun k => negb (populated k (results (self new_object))))
         all_keys).
Proof.
  destruct (dump_members (results (self new_object)))
    as (_ & _ & Hnull & _).
  exact Hnull.
Defined.

Lemma init_resets_the_log_witness :
  exists sm w',
    ScientificMethod_init key_required ∅ noon (Some "sk-test") None
      (mkWorld ∅ {[ "scientific_method_20250101_120000.log"
                     := [first_log; first_log] ]} [] [])
    = (Ok sm, w')
    /\ results sm = empty_results
    /\ files w' !! "scientific_method_20250101_120000.log"
       = Some [first_log].
Proof.
  pose proof (init_resets_the_log key_required ∅ noon (Some "sk-test")
                (mkWorld ∅ {[ "scientific_method_20250101_120000.log"
                               := [first_log; first_log] ]} [] [])) as H.
  cbv zeta in H.
  change (key_required (Some "sk-test")) with (@None string) in H.
  cbv iota in H.
  destruct H as (sm & w' & Hinit & Hr & _ & _ & Hlog & _).
  exists sm, w'. now repeat split.
Defined.

Lemma dotenv_question_is_ignored_witness :
  resolve_question no_question_args (env_question_of (environ keyed_world))
  = Some default_question
  /\ environ (dotenv_loaded dotenv_with_question keyed_world)
       !! "SCIENTIFIC_METHOD_QUESTION"
     = Some "Why is the sky blue?".
Proof.
  destruct (dotenv_question_is_ignored (always "ok") key_required
              dotenv_with_question noon no_question_args keyed_world
              "Why is the sky blue?")
    as (Hq & Hset & _).
  - reflexivity.
  - reflexivity.
  - vm_compute. reflexivity.
  - vm_compute. reflexivity.
  - split; [exact Hq|exact Hset].
Defined.

Lemma empty_data_uses_note_witness :
  populated Kexperimental_data (results (self empty_data_object)) = true
  /\ data_context (results (self empty_data_object)) = no_data_note.
Proof.
  destruct (empty_data_uses_note (always "ok") empty_data_object)
    as (Hpop & Hnote & _).
  - reflexivity.
  - split; [exact Hpop|exact Hnote].
Defined.

Lemma data_run_witness :
  exists r st,
    run_full_method (always "ok") "What causes earthquakes?" true
      (constructed ∅ noon keyed_world) = (Ok r, st)
    /\ (forall k, populated k r = true)
    /\ null_members (to_json r) = [].
Proof.
  destruct (data_run (always "ok") key_required ∅ noon data_args keyed_world)
    as (r & st & Hrun & _ & Hpop & _ & _ & _ & _ & Hnull).
  - reflexivity.
  - reflexivity.
  - vm_compute. reflexivity.
  - intros h c. exists "ok". reflexivity.
  - exists r, st. now repeat split.
Defined.
